(** * The salary dashboard of [app.py]

    A shallow embedding of the metrics calculator [calculate_metrics]
    (app.py, lines 49-79) and of the script body that filters the dataset
    and renders it (lines 108-347), followed by the properties of both.

    - pandas frames live in a store of frames; boolean indexing allocates a
      new frame and never writes to an existing one;
    - Python exceptions are an explicit outcome;
    - [streamlit] calls are events appended to a trace;
    - float64 arithmetic is an interface with two instances: IEEE binary64
      (Rocq's primitive floats, with the C library's [pow] as a parameter)
      and the exact real numbers. *)

From Stdlib Require Import ZArith Floats Reals Lra.
From stdpp Require Import base gmap strings list sorting.

Local Open Scope Z_scope.

(** ** Float arithmetic *)

(** The operations [calculate_metrics] and the script apply to salaries.
    The salary columns are float64; [of_int] is the conversion Python
    applies to an [int] operand that meets a float ([- 1], [* 100]), and
    [truediv] is [/] between two Python ints with a non-zero divisor
    (line 67: [1/years_diff]). *)
Class Float64 (F : Type) : Type := {
  of_int : Z → F;
  truediv : Z → Z → F;
  fdiv : F → F → F;
  fpow : F → F → F;
  fsub : F → F → F;
  fmul : F → F → F;
  fgtb : F → F → bool
}.

Declare Scope py_scope.
Delimit Scope py_scope with py.
Notation "x / y" := (fdiv x y) : py_scope.
Notation "x ** y" := (fpow x y) (at level 30, right associativity) : py_scope.
Notation "x - y" := (fsub x y) : py_scope.
Notation "x * y" := (fmul x y) : py_scope.

Module Binary64.

(** A Python int as an unrounded binary float: mantissa [z], exponent 0. *)
Definition Z2SF (z : Z) : spec_float :=
  match z with
  | Z0 => S754_zero false
  | Zpos p => S754_finite false p 0
  | Zneg p => S754_finite true p 0
  end.

(** [float(z)]: the nearest binary64, ties to even. *)
Definition int_to_float (z : Z) : float :=
  SF2Prim (binary_normalize prec emax z 0 false).

(** [a / b] on Python ints: the quotient rounded once. *)
Definition int_truediv (a b : Z) : float :=
  SF2Prim (SFdiv prec emax (Z2SF a) (Z2SF b)).

(** numpy hands [**] to the C library's [pow], which the primitive
    floats do not have: the instance takes it as an argument. *)
Definition ops (pow : float → float → float) : Float64 float := {|
  of_int := int_to_float;
  truediv := int_truediv;
  fdiv := PrimFloat.div;
  fpow := pow;
  fsub := PrimFloat.sub;
  fmul := PrimFloat.mul;
  fgtb := λ x y, PrimFloat.ltb y x
|}.

(** An executable [pow] for the examples: [exp (y * ln x)] by series, an
    approximation of the C library's on positive finite bases. *)
Section Series.
Local Open Scope float_scope.

Definition ln2 : float := 0x1.62e42fefa39efp-1.

(** [acc] plus the next [n] terms [pw / k] of the series of [atanh],
    [pw] an odd power of [t] and [k] its exponent *)
Fixpoint atanh_series (n : nat) (t2 pw k acc : float) : float :=
  match n with
  | O => acc
  | S n' => atanh_series n' t2 (pw * t2) (k + 2) (acc + pw / k)
  end.

Definition ln (x : float) : float :=
  let '(m, e) := Z.frexp x in
  let t := (m - 1) / (m + 1) in
  int_to_float e * ln2 + 2 * atanh_series 24 (t * t) t 1 0.

(** [acc] plus the next [n] terms of the series of [exp], [term] the
    current one and [k] the index of the next *)
Fixpoint exp_series (n : nat) (y term k acc : float) : float :=
  match n with
  | O => acc
  | S n' => exp_series n' y (term * y / k) (k + 1) (acc + term)
  end.

Fixpoint square_times (n : nat) (x : float) : float :=
  match n with
  | O => x
  | S n' => square_times n' (x * x)
  end.

Definition exp (y : float) : float :=
  square_times 10 (exp_series 24 (y / 1024) 1 1 0).

Definition pow_series (x y : float) : float :=
  if x =? 0 then (if y =? 0 then 1 else 0)
  else if x <? 0 then nan
  else exp (y * ln x).
End Series.

Definition series_ops : Float64 float := ops pow_series.


End Binary64.

Module Exact.

(** The same operations without rounding, on the real numbers. *)
Definition ops : Float64 R := {|
  of_int := IZR;
  truediv := λ a b, (IZR a / IZR b)%R;
  fdiv := Rdiv;
  fpow := Rpower;
  fsub := Rminus;
  fmul := Rmult;
  fgtb := λ x y, if Rlt_dec y x then true else false
|}.

End Exact.

(** ** Frames, the store and the trace *)

Section Frames.
Context {F : Type}.

(** One row of [data/salary_analysis_data.csv]; the fields are the
    columns the script reads. *)
Record Row : Type := {
  Отрасль : string;
  Год : Z;
  Зарплата : F;
  Реальная_зарплата : F;
  Инфляция : F;
  Кумулятивная_инфляция : F
}.

(** A frame is its rows in positional order ([iloc] order). *)
Local Abbreviation DataFrame := (list Row).

(** A reference to a frame object. *)
Definition loc : Type := nat.

(** An f-string before formatting: literal text and the values to format,
    each with its format specification. *)
Inductive piece : Type :=
| Lit (s : string)
| FmtStr (s : string)
| FmtInt (n : Z)
| FmtFloat (x : F) (spec : string)
| FmtMean (xs : list F) (spec : string)
| FmtMax (xs : list F) (spec : string)
| FmtYearOfMax (rows : DataFrame).

Definition fstring : Type := list piece.

Inductive chart_type : Type :=
| Номинальные_зарплаты
| Реальные_зарплаты
| Сравнение_роста
| Инфляция_chart.

(** A plotly figure, by the data it draws. *)
Inductive figure : Type :=
| px_line (df : DataFrame) (y title : string)
| growth_bars (growth_data : list (string * F * F)) (title : fstring)
| inflation_subplots (inflation_data : list (Z * F * F)).

(** What the script asks streamlit to show, and (last constructor) a
    record of each call the script makes to [calculate_metrics]. *)
Inductive event : Type :=
| st_header (s : string)
| st_subheader (s : string)
| st_columns (n : nat)
| with_enter (i : nat)
| with_exit
| st_markdown (s : fstring)
| st_metric (label value delta : fstring)
| st_selectbox (label : string)
| st_plotly_chart (fig : figure)
| st_checkbox (label : string)
| st_dataframe (display_data : DataFrame)
| st_write (s : fstring)
| st_warning (s : string)
| metrics_call (sector : string) (start_year end_year : Z).

Record world : Type := World {
  frames : gmap loc DataFrame;
  trace : list event
}.

Inductive exn : Type :=
| ZeroDivisionError
| IndexError
| KeyError
| NameError.

Inductive outcome (A : Type) : Type :=
| Ok (a : A)
| Raise (e : exn).
Global Arguments Ok {A} a.
Global Arguments Raise {A} e.

(** A Python computation: it ends with a value or an exception, in a
    world that may have changed. *)
Definition M (A : Type) : Type := world → outcome A * world.

Definition ret {A : Type} (a : A) : M A := λ w, (Ok a, w).

Definition bind {A B : Type} (c : M A) (k : A → M B) : M B :=
  λ w, match c w with
       | (Ok a, w') => k a w'
       | (Raise e, w') => (Raise e, w')
       end.

Definition raise {A : Type} (e : exn) : M A := λ w, (Raise e, w).

Definition emit (e : event) : M unit :=
  λ w, (Ok tt, World (frames w) (trace w ++ [e])).

(** A new frame object. *)
Definition alloc (df : DataFrame) : M loc :=
  λ w, let l := fresh (dom (frames w)) in
       (Ok l, World (<[l := df]> (frames w)) (trace w)).

(** The rows of a frame. Python cannot hold a reference to no object;
    the store can, and reading through one raises. *)
Definition rows (l : loc) : M DataFrame :=
  λ w, match frames w !! l with
       | Some df => (Ok df, w)
       | None => (Raise NameError, w)
       end.
End Frames.

Global Arguments Row : clear implicits.
Abbreviation DataFrame F := (list (Row F)) (only parsing).
Global Arguments piece : clear implicits.
Global Arguments fstring : clear implicits.
Global Arguments figure : clear implicits.
Global Arguments event : clear implicits.
Global Arguments world : clear implicits.
Global Arguments M : clear implicits.

Notation "x ← c ; k" := (bind c (λ x, k))
  (at level 20, c at level 100, k at level 200, only parsing) : py_scope.
Notation "c ;; k" := (bind c (λ _, k))
  (at level 100, k at level 200, right associativity, only parsing) : py_scope.

(** ** pandas operations *)

Section Pandas.
Context {F : Type}.
Local Open Scope py_scope.

(** [df[mask]], the mask computed row by row from the columns of [df]
    itself: a new frame with the rows where the mask holds, in order. *)
Definition getitem_mask (df : loc) (mask : Row F → bool) : M F loc :=
  rs ← rows df;
  alloc (List.filter mask rs).

(** [len(df)] *)
Definition len (df : loc) : M F nat :=
  rs ← rows df;
  ret (length rs).

(** [df[col].iloc[0]] *)
Definition iloc0 (df : loc) (col : Row F → F) : M F F :=
  rs ← rows df;
  match rs with
  | [] => raise IndexError
  | r :: _ => ret (col r)
  end.

(** [d[key]] on a dict *)
Definition getitem (d : gmap string F) (key : string) : M F F :=
  match d !! key with
  | Some v => ret v
  | None => raise KeyError
  end.

(** [a / b] on Python ints *)
Definition int_div {arith : Float64 F} (a b : Z) : M F F :=
  if b =? 0 then raise ZeroDivisionError else ret (truediv a b).
End Pandas.

(** ** [calculate_metrics] (lines 49-79) *)

Section Metrics.
Context {F : Type} {arith : Float64 F}.
Local Open Scope py_scope.

(** [data] is the frame of the dataset, [sector] a string, and the two
    years are Python ints, as the slider of the script gives them (the
    defaults 2000 and 2024 of the signature are never used). The salaries
    are float64: [/] and [**] on them return a float (an infinity or a NaN
    where the mathematical result is undefined) and do not raise; [/] on
    the two ints of [1/years_diff] raises on a zero divisor. Both lengths
    of line 56 are read, where [or] would skip the second. *)
Definition calculate_metrics (data : loc) (sector : string)
    (start_year end_year : Z) : M F (option (gmap string F)) :=
  sector_data ← getitem_mask data (λ r, String.eqb (Отрасль r) sector);
  start_data ← getitem_mask sector_data (λ r, Год r =? start_year);
  end_data ← getitem_mask sector_data (λ r, Год r =? end_year);
  n_start ← len start_data;
  n_end ← len end_data;
  if (n_start =? 0)%nat || (n_end =? 0)%nat then ret None else
  start_salary ← iloc0 start_data Зарплата;
  end_salary ← iloc0 end_data Зарплата;
  start_real_salary ← iloc0 start_data Реальная_зарплата;
  end_real_salary ← iloc0 end_data Реальная_зарплата;
  let nominal_growth := end_salary / start_salary in
  let real_growth := end_real_salary / start_real_salary in
  let years_diff := (end_year - start_year)%Z in
  e ← int_div 1 years_diff;
  let avg_nominal_growth := (nominal_growth ** e - of_int 1) * of_int 100 in
  e' ← int_div 1 years_diff;
  let avg_real_growth := (real_growth ** e' - of_int 1) * of_int 100 in
  ret (Some (<["start_salary" := start_salary]>
            (<["end_salary" := end_salary]>
            (<["start_real_salary" := start_real_salary]>
            (<["end_real_salary" := end_real_salary]>
            (<["nominal_growth" := nominal_growth]>
            (<["real_growth" := real_growth]>
            (<["avg_nominal_growth" := avg_nominal_growth]>
            (<["avg_real_growth" := avg_real_growth]> ∅))))))))).
End Metrics.

(** ** The script body (lines 108-347)

    The widgets of the sidebar (lines 86-106) are the inputs: the selected
    industries, the year range, and below the chart type and the state of
    the table checkbox. Text is kept as unformatted f-strings, figures by
    the data they draw, and the aggregates of the inflation column
    ([mean], [max], [idxmax]) as requests to format them. What only these
    payloads could raise (the integer cast of a NaN or infinite salary in
    the table of lines 291-292, [idxmax] of a column of NaN on line 326) is
    outside the model, and a [with] block that raises is not left. *)

Section Dashboard.
Context {F : Type} {arith : Float64 F}.
Local Open Scope py_scope.

(** [for x in l: body(x)] *)
Fixpoint for_each {A : Type} (l : list A) (body : A → M F unit) : M F unit :=
  match l with
  | [] => ret tt
  | x :: l' => body x ;; for_each l' body
  end.

(** [enumerate(l)] *)
Definition enumerate {A : Type} (l : list A) : list (nat * A) :=
  zip (seq 0 (length l)) l.

(** [if metrics:] is false on [None] and on an empty dict. *)
Definition truthy (metrics : option (gmap string F)) : option (gmap string F) :=
  match metrics with
  | Some m => if (size m =? 0)%nat then None else Some m
  | None => None
  end.

(** [series.isin(values)] at one row *)
Definition isin (s : string) (values : list string) : bool :=
  existsb (String.eqb s) values.

(** Lines 109-113. *)
Definition filtered_data (data : loc) (selected_sectors : list string)
    (year_range : Z * Z) : M F loc :=
  getitem_mask data (λ r,
    isin (Отрасль r) selected_sectors
    && (Год r >=? year_range.1)
    && (Год r <=? year_range.2)).

(** Every call of the script to [calculate_metrics] has these arguments;
    the call is recorded in the trace before it is made. *)
Definition metrics_of (data : loc) (sector : string) (year_range : Z * Z)
    : M F (option (gmap string F)) :=
  emit (metrics_call sector year_range.1 year_range.2) ;;
  calculate_metrics data sector year_range.1 year_range.2.

(** Lines 116-135. *)
Definition key_metrics (data : loc) (selected_sectors : list string)
    (year_range : Z * Z) : M F unit :=
  emit (st_header "📈 Ключевые показатели") ;;
  emit (st_columns (length selected_sectors)) ;;
  for_each (enumerate selected_sectors) (λ '(i, sector),
    emit (with_enter i) ;;
    metrics ← metrics_of data sector year_range;
    match truthy metrics with
    | Some metrics =>
        emit (st_markdown [Lit "**"; FmtStr sector; Lit "**"]) ;;
        end_salary ← getitem metrics "end_salary";
        nominal_growth ← getitem metrics "nominal_growth";
        emit (st_metric
                [Lit "Зарплата "; FmtInt year_range.2]
                [FmtFloat end_salary ",.0f"; Lit " ₽"]
                [Lit "+";
                 FmtFloat ((nominal_growth - of_int 1) * of_int 100) ".0f";
                 Lit "% за период"]) ;;
        real_growth ← getitem metrics "real_growth";
        avg_real_growth ← getitem metrics "avg_real_growth";
        emit (st_metric
                [Lit "Реальный рост"]
                [FmtFloat real_growth ".1f"; Lit "x"]
                [FmtFloat avg_real_growth ".1f"; Lit "% в год"])
    | None => ret tt
    end ;;
    emit with_exit).

(** Lines 186-194: the rows of [growth_data]. *)
Fixpoint growth_data (data : loc) (sectors : list string)
    (year_range : Z * Z) : M F (list (string * F * F)) :=
  match sectors with
  | [] => ret []
  | sector :: rest =>
      metrics ← metrics_of data sector year_range;
      row ← match truthy metrics with
            | Some metrics =>
                nominal_growth ← getitem metrics "nominal_growth";
                real_growth ← getitem metrics "real_growth";
                ret [(sector, nominal_growth, real_growth)]
            | None => ret []
            end;
      more ← growth_data data rest year_range;
      ret (row ++ more)
  end.

(** [df.drop_duplicates(subset=['Год'])]: the first row of each year. *)
Fixpoint drop_duplicates_year (seen : list Z) (rs : DataFrame F) : DataFrame F :=
  match rs with
  | [] => []
  | r :: rs' =>
      if bool_decide (Год r ∈ seen) then drop_duplicates_year seen rs'
      else r :: drop_duplicates_year (Год r :: seen) rs'
  end.

(** The order of [sort_values('Год')]. *)
Definition year_le (a b : Row F) : Prop := (Год a ≤ Год b)%Z.

Global Instance year_le_dec : RelDecision year_le :=
  λ a b, decide (Год a ≤ Год b)%Z.

(** Line 233: years, each once, in increasing order, with both inflation
    columns. *)
Definition inflation_data (rs : DataFrame F) : list (Z * F * F) :=
  (λ r, (Год r, Инфляция r, Кумулятивная_инфляция r))
    <$> merge_sort year_le (drop_duplicates_year [] rs).

(** Lines 138-283. *)
Definition charts (data filtered : loc) (selected_sectors : list string)
    (year_range : Z * Z) (chart : chart_type) : M F unit :=
  emit (st_header "📊 Визуализация данных") ;;
  emit (st_selectbox "Выберите тип данных для отображения:") ;;
  match chart with
  | Номинальные_зарплаты =>
      rs ← rows filtered;
      emit (st_plotly_chart
              (px_line rs "Зарплата" "Динамика номинальных зарплат"))
  | Реальные_зарплаты =>
      rs ← rows filtered;
      emit (st_plotly_chart
              (px_line rs "Реальная_зарплата"
                 "Динамика реальных зарплат (в ценах 2000 года)"))
  | Сравнение_роста =>
      growth ← growth_data data selected_sectors year_range;
      match growth with
      | [] => ret tt
      | _ :: _ =>
          emit (st_plotly_chart
                  (growth_bars growth
                     [Lit "Сравнение номинального и реального роста (";
                      FmtInt year_range.1; Lit "-"; FmtInt year_range.2;
                      Lit ")"]))
      end
  | Инфляция_chart =>
      rs ← rows filtered;
      emit (st_plotly_chart (inflation_subplots (inflation_data rs)))
  end.

(** Lines 286-300; [display_data] is a copy of the filtered frame, shown
    with its columns rounded. *)
Definition table (filtered : loc) (show_table : bool) : M F unit :=
  emit (st_header "📋 Детальные данные") ;;
  emit (st_checkbox "Показать подробную таблицу") ;;
  if show_table then
    rs ← rows filtered;
    emit (st_dataframe rs)
  else ret tt.

(** Lines 335-341: the running best of the loop. *)
Fixpoint best_real_growth (data : loc) (sectors : list string)
    (year_range : Z * Z) (best : F * string) : M F (F * string) :=
  match sectors with
  | [] => ret best
  | sector :: rest =>
      metrics ← metrics_of data sector year_range;
      best' ← match truthy metrics with
              | Some metrics =>
                  real_growth ← getitem metrics "real_growth";
                  if fgtb real_growth best.1
                  then ret (real_growth, sector)
                  else ret best
              | None => ret best
              end;
      best_real_growth data rest year_range best'
  end.

(** Lines 303-344. *)
Definition conclusions (data filtered : loc) (selected_sectors : list string)
    (year_range : Z * Z) : M F unit :=
  emit (st_header "🎯 Аналитические выводы") ;;
  emit (st_columns 2) ;;
  emit (with_enter 0) ;;
  emit (st_subheader "Номинальный рост") ;;
  for_each selected_sectors (λ sector,
    metrics ← metrics_of data sector year_range;
    match truthy metrics with
    | Some metrics =>
        nominal_growth ← getitem metrics "nominal_growth";
        avg_nominal_growth ← getitem metrics "avg_nominal_growth";
        emit (st_write [Lit "**"; FmtStr sector; Lit "**: ";
                        FmtFloat nominal_growth ".1f"; Lit "x (";
                        FmtFloat avg_nominal_growth ".1f"; Lit "% в год)"])
    | None => ret tt
    end) ;;
  emit with_exit ;;
  emit (with_enter 1) ;;
  emit (st_subheader "Реальный рост") ;;
  for_each selected_sectors (λ sector,
    metrics ← metrics_of data sector year_range;
    match truthy metrics with
    | Some metrics =>
        real_growth ← getitem metrics "real_growth";
        avg_real_growth ← getitem metrics "avg_real_growth";
        emit (st_write [Lit "**"; FmtStr sector; Lit "**: ";
                        FmtFloat real_growth ".1f"; Lit "x (";
                        FmtFloat avg_real_growth ".1f"; Lit "% в год)"])
    | None => ret tt
    end) ;;
  emit with_exit ;;
  emit (st_subheader "Общие выводы") ;;
  n ← len filtered;
  if (0 <? n)%nat then
    rs ← rows filtered;
    let by_year := drop_duplicates_year [] rs in
    let inflation := Инфляция <$> by_year in
    emit (st_write [Lit "• Средний уровень инфляции за выбранный период: **";
                    FmtMean inflation ".1f"; Lit "%**"]) ;;
    emit (st_write [Lit "• Максимальная инфляция: **";
                    FmtMax inflation ".1f"; Lit "%** в ";
                    FmtYearOfMax by_year; Lit " году"]) ;;
    emit (st_write [Lit "• Анализируется период: **";
                    FmtInt year_range.1; Lit "-"; FmtInt year_range.2;
                    Lit "** ("; FmtInt (year_range.2 - year_range.1)%Z;
                    Lit " лет)"]) ;;
    if (1 <? length selected_sectors)%nat then
      best ← best_real_growth data selected_sectors year_range (of_int 0, "");
      match best.2 with
      | EmptyString => ret tt
      | String _ _ =>
          emit (st_write [Lit "• Лидер по реальному росту зарплат: **";
                          FmtStr best.2; Lit "** (";
                          FmtFloat best.1 ".1f"; Lit "x)"])
      end
    else ret tt
  else ret tt.

(** The text of line 347. *)
Definition no_data_message : string :=
  "Для выбранных параметров данные не найдены. Попробуйте изменить фильтры.".

(** Lines 108-347. *)
Definition dashboard (data : loc) (selected_sectors : list string)
    (year_range : Z * Z) (chart : chart_type) (show_table : bool) : M F unit :=
  filtered ← filtered_data data selected_sectors year_range;
  n ← len filtered;
  if (0 <? n)%nat then
    key_metrics data selected_sectors year_range ;;
    charts data filtered selected_sectors year_range chart ;;
    table filtered show_table ;;
    conclusions data filtered selected_sectors year_range
  else
    emit (st_warning no_data_message).
End Dashboard.

(** ** Vocabulary of the statements *)

Section Vocabulary.
Context {F : Type} {arith : Float64 F}.
Local Open Scope py_scope.

(** [r] is a record of [sector] at [year]. *)
Definition record_at (sector : string) (year : Z) (r : Row F) : Prop :=
  Отрасль r = sector ∧ Год r = year.

(** The dataset holds a record of [sector] at [year]. *)
Definition has_record (rs : DataFrame F) (sector : string) (year : Z) : Prop :=
  ∃ r, r ∈ rs ∧ record_at sector year r.

Global Instance has_record_dec (rs : DataFrame F) sector year :
  Decision (has_record rs sector year).
Proof.
  refine (cast_if (decide (Exists (λ r, Отрасль r = sector ∧ Год r = year) rs)));
    unfold has_record, record_at; rewrite <- Exists_exists; assumption.
Defined.

(** [r] is the first record of [sector] at [year] in dataset order. *)
Definition first_record (rs : DataFrame F) (sector : string) (year : Z)
    (r : Row F) : Prop :=
  ∃ pre post, rs = pre ++ r :: post
              ∧ record_at sector year r
              ∧ Forall (λ x, ¬ record_at sector year x) pre.

(** [r] passes the filters of the sidebar. *)
Definition selected (selected_sectors : list string) (year_range : Z * Z)
    (r : Row F) : Prop :=
  Отрасль r ∈ selected_sectors
  ∧ (year_range.1 ≤ Год r)%Z ∧ (Год r ≤ year_range.2)%Z.

Global Instance selected_dec sel yr r : Decision (selected sel yr r).
Proof. unfold selected. apply _. Defined.

(** The state after one more frame object. *)
Definition new_frame (w : world F) (df : DataFrame F) : world F :=
  World (<[fresh (dom (frames w)) := df]> (frames w)) (trace w).

(** The dict of lines 70-79 from the two endpoint rows. *)
Definition metrics_dict (s e : Row F) (start_year end_year : Z) : gmap string F :=
  let nominal_growth := Зарплата e / Зарплата s in
  let real_growth := Реальная_зарплата e / Реальная_зарплата s in
  let exponent := truediv 1 (end_year - start_year)%Z in
  <["start_salary" := Зарплата s]>
  (<["end_salary" := Зарплата e]>
  (<["start_real_salary" := Реальная_зарплата s]>
  (<["end_real_salary" := Реальная_зарплата e]>
  (<["nominal_growth" := nominal_growth]>
  (<["real_growth" := real_growth]>
  (<["avg_nominal_growth" :=
       (nominal_growth ** exponent - of_int 1) * of_int 100]>
  (<["avg_real_growth" :=
       (real_growth ** exponent - of_int 1) * of_int 100]> ∅))))))).

(** The three frames a call builds, and its outcome as a function of the
    rows of [data]. *)
Definition sector_rows (rs : DataFrame F) (sector : string) : DataFrame F :=
  List.filter (λ r, String.eqb (Отрасль r) sector) rs.

Definition year_rows (rs : DataFrame F) (year : Z) : DataFrame F :=
  List.filter (λ r, Год r =? year) rs.

Definition metrics_value (rs : DataFrame F) (sector : string)
    (start_year end_year : Z) : outcome (option (gmap string F)) :=
  match year_rows (sector_rows rs sector) start_year,
        year_rows (sector_rows rs sector) end_year with
  | s :: _, e :: _ =>
      if end_year - start_year =? 0 then Raise ZeroDivisionError
      else Ok (Some (metrics_dict s e start_year end_year))
  | _, _ => Ok None
  end.

Definition after_call (w : world F) (rs : DataFrame F) (sector : string)
    (start_year end_year : Z) : world F :=
  new_frame
    (new_frame (new_frame w (sector_rows rs sector))
       (year_rows (sector_rows rs sector) start_year))
    (year_rows (sector_rows rs sector) end_year).
End Vocabulary.

(** ** Example data *)

Module Examples.
Local Open Scope float_scope.

Definition row (sector : string) (year : Z) (nominal real : float) : Row float :=
  {| Отрасль := sector; Год := year;
     Зарплата := nominal; Реальная_зарплата := real;
     Инфляция := 0; Кумулятивная_инфляция := 1 |}.

Definition it2000 : Row float := row "IT" 2000 10000 10000.
Definition it2020 : Row float := row "IT" 2020 80000 40000.

(** The two records of the worked example. *)
Definition it : DataFrame float := [it2000; it2020].

(** The same with a second, different record for each endpoint year. *)
Definition it_twice : DataFrame float :=
  [it2000; row "IT" 2000 1 1; row "Edu" 2020 7 7; it2020; row "IT" 2020 2 2].

(** A store holding [rs] as frame 0, and nothing shown yet. *)
Definition start (rs : DataFrame float) : world float :=
  World {[ 0%nat := rs ]} [].
End Examples.

Module MoreExamples.
Import Examples.
Local Open Scope float_scope.

(** Two industries with a record at both 2000 and 2020, and one with a
    record at 2000 only. *)
Definition three_sectors : DataFrame float :=
  [it2000; row "Edu" 2000 5000 5000; it2020;
   row "Edu" 2020 20000 10000; row "Med" 2000 4000 4000].
End MoreExamples.

Module Compounding.
Import Examples.
Local Open Scope float_scope.





End Compounding.

(** ** The widgets of the sidebar (lines 89-106)

    What the multiselect offers and what the slider spans, both computed
    from the dataset, and the selection both widgets start from. *)

Section Sidebar.
Context {F : Type}.

(** [series.unique().tolist()]: each value once, in order of first
    appearance. *)
Fixpoint unique (seen : list string) (l : list string) : list string :=
  match l with
  | [] => []
  | x :: l' =>
      if bool_decide (x ∈ seen) then unique seen l'
      else x :: unique (x :: seen) l'
  end.

(** Line 89. *)
Definition available_sectors (rs : DataFrame F) : list string :=
  unique [] (Отрасль <$> rs).

(** Lines 97-98: [int(data['Год'].min())] and [int(data['Год'].max())].
    On a frame without rows the minimum is NaN and [int] raises
    [ValueError]: no value. *)
Definition min_year (rs : DataFrame F) : option Z :=
  match rs with
  | [] => None
  | r :: rs' => Some (foldr Z.min (Год r) (Год <$> rs'))
  end.

Definition max_year (rs : DataFrame F) : option Z :=
  match rs with
  | [] => None
  | r :: rs' => Some (foldr Z.max (Год r) (Год <$> rs'))
  end.

(** The values of [default=available_sectors] (line 93) and of
    [value=(min_year, max_year)] (line 104). *)
Definition default_selection (rs : DataFrame F) : option (list string * (Z * Z)) :=
  match min_year rs, max_year rs with
  | Some lo, Some hi => Some (available_sectors rs, (lo, hi))
  | _, _ => None
  end.
End Sidebar.

(** ** More vocabulary: what a run does *)

Section Outcomes.
Context {F : Type} {arith : Float64 F}.
Local Open Scope py_scope.

(** The first row of [sector] at [year], if there is one. *)
Definition first_row (rs : DataFrame F) (sector : string) (year : Z)
    : option (Row F) :=
  head (year_rows (sector_rows rs sector) year).

(** The dict a call returns for two different years, or [None]. *)
Definition metrics_opt (rs : DataFrame F) (sector : string)
    (start_year end_year : Z) : option (gmap string F) :=
  match first_row rs sector start_year, first_row rs sector end_year with
  | Some s, Some e => Some (metrics_dict s e start_year end_year)
  | _, _ => None
  end.

(** The row of the comparison chart for [sector], if it has one. *)
Definition growth_row (rs : DataFrame F) (year_range : Z * Z) (sector : string)
    : option (string * F * F) :=
  match first_row rs sector year_range.1, first_row rs sector year_range.2 with
  | Some s, Some e =>
      Some (sector, Зарплата e / Зарплата s,
            Реальная_зарплата e / Реальная_зарплата s)
  | _, _ => None
  end.

(** One step of the loop of lines 337-341 on a sector with a row in the
    comparison, and the loop on all of them. *)
Definition better (best : F * string) (row : string * F * F) : F * string :=
  if fgtb row.2 best.1 then (row.2, row.1.1) else best.

Definition leader (rows : list (string * F * F)) (best : F * string)
    : F * string :=
  foldl better best rows.

(** [c], run in a store that holds [rs] as [data], returns a value and
    shows events that satisfy [Q], and the store still holds [rs]. *)
Definition runs (data : loc) (rs : DataFrame F) {A : Type} (c : M F A)
    (Q : A → list (event F) → Prop) : Prop :=
  ∀ w, frames w !! data = Some rs →
       ∃ a evs w', c w = (Ok a, w')
                   ∧ frames w' !! data = Some rs
                   ∧ trace w' = trace w ++ evs
                   ∧ Q a evs.

(** [c], run in such a store, raises [e]. *)
Definition fails (data : loc) (rs : DataFrame F) {A : Type} (c : M F A)
    (e : exn) : Prop :=
  ∀ w, frames w !! data = Some rs → (c w).1 = Raise e.

(** Whatever the store and the outcome, [c] shows only events that
    satisfy [P]. *)
Definition emits (P : event F → Prop) {A : Type} (c : M F A) : Prop :=
  ∀ w, ∃ evs, trace (c w).2 = trace w ++ evs ∧ Forall P evs.

(** What the comparison branch (lines 138-144, 184-229) shows for a range
    of two different years, with the records of its calls: the header and
    the select box, and a chart when [growth_data] is not empty. *)
Definition comparison_events (rs : DataFrame F) (selected_sectors : list string)
    (year_range : Z * Z) : list (event F) :=
  [st_header "📊 Визуализация данных";
   st_selectbox "Выберите тип данных для отображения:"]
  ++ ((λ sector, metrics_call sector year_range.1 year_range.2)
        <$> selected_sectors)
  ++ match omap (growth_row rs year_range) selected_sectors with
     | [] => []
     | row :: rows =>
         [st_plotly_chart
            (growth_bars (row :: rows)
               [Lit "Сравнение номинального и реального роста (";
                FmtInt year_range.1; Lit "-"; FmtInt year_range.2;
                Lit ")"])]
     end.

(** The heading [**sector**] of line 125. *)
Definition heading (sector : string) : event F :=
  st_markdown [Lit "**"; FmtStr sector; Lit "**"].

(** What column [i] of the key metrics (lines 122-135) shows for [sector]
    and a range of two different years, with the record of its call:
    the heading and the two metrics when the industry has a record at both
    ends of the range, nothing otherwise. *)
Definition column_events (rs : DataFrame F) (year_range : Z * Z)
    (column : nat * string) : list (event F) :=
  let sector := column.2 in
  [with_enter column.1; metrics_call sector year_range.1 year_range.2]
  ++ match first_row rs sector year_range.1,
           first_row rs sector year_range.2 with
     | Some s, Some e =>
         let nominal_growth := Зарплата e / Зарплата s in
         let real_growth := Реальная_зарплата e / Реальная_зарплата s in
         let exponent := truediv 1 (year_range.2 - year_range.1)%Z in
         [heading sector;
          st_metric
            [Lit "Зарплата "; FmtInt year_range.2]
            [FmtFloat (Зарплата e) ",.0f"; Lit " ₽"]
            [Lit "+";
             FmtFloat ((nominal_growth - of_int 1) * of_int 100) ".0f";
             Lit "% за период"];
          st_metric
            [Lit "Реальный рост"]
            [FmtFloat real_growth ".1f"; Lit "x"]
            [FmtFloat ((real_growth ** exponent - of_int 1) * of_int 100)
               ".1f";
             Lit "% в год"]]
     | _, _ => []
     end
  ++ [with_exit].

(** What the section of the key metrics (lines 116-135) shows. *)
Definition key_metrics_events (rs : DataFrame F)
    (selected_sectors : list string) (year_range : Z * Z) : list (event F) :=
  st_header "📈 Ключевые показатели"
  :: st_columns (length selected_sectors)
  :: concat (column_events rs year_range <$> enumerate selected_sectors).

(** [r] is the first row of its year in [rs]. *)
Definition first_of_year (rs : DataFrame F) (r : Row F) : Prop :=
  ∃ pre post, rs = pre ++ r :: post ∧ Forall (λ x, Год x ≠ Год r) pre.

(** [>] orders the values of [vals] as it orders numbers: no value is
    above itself, and being above, and not being above, both pass along
    a chain. (A NaN among them breaks the last.) *)
Definition ordered (vals : list F) : bool :=
  forallb (λ a,
    negb (fgtb a a)
    && forallb (λ b,
         forallb (λ c,
           implb (fgtb a b && fgtb b c) (fgtb a c)
           && implb (negb (fgtb a b) && negb (fgtb b c)) (negb (fgtb a c)))
           vals) vals) vals.

Definition is_warning (e : event F) : Prop := ∃ s, e = st_warning s.

Definition is_chart (e : event F) : Prop := ∃ fig, e = st_plotly_chart fig.
End Outcomes.

(** ** Running the pandas operations *)

Section Runs.
Context {F : Type} {arith : Float64 F}.
Implicit Types (w : world F) (rs df : DataFrame F) (l : loc).

Lemma new_frame_lookup_new w df :
  frames (new_frame w df) !! fresh (dom (frames w)) = Some df.
Proof. apply lookup_insert_eq. Qed.

Lemma new_frame_lookup_old w df l rs :
  frames w !! l = Some rs → frames (new_frame w df) !! l = Some rs.
Proof.
  intros Hl. unfold new_frame; simpl.
  rewrite lookup_insert_ne; [done|].
  intros <-. apply (is_fresh (dom (frames w))).
  apply elem_of_dom. eauto.
Qed.

Lemma new_frame_subseteq w df : frames w ⊆ frames (new_frame w df).
Proof.
  apply insert_subseteq, not_elem_of_dom, is_fresh.
Qed.

Lemma run_rows w l rs : frames w !! l = Some rs → rows l w = (Ok rs, w).
Proof. intros Hl. unfold rows. by rewrite Hl. Qed.

Lemma run_getitem_mask w l rs mask :
  frames w !! l = Some rs →
  getitem_mask l mask w
  = (Ok (fresh (dom (frames w))), new_frame w (List.filter mask rs)).
Proof. intros Hl. unfold getitem_mask, bind. by rewrite (run_rows _ _ _ Hl). Qed.

Lemma run_len w l rs : frames w !! l = Some rs → len l w = (Ok (length rs), w).
Proof. intros Hl. unfold len, bind. by rewrite (run_rows _ _ _ Hl). Qed.

Lemma run_iloc0 w l r rs col :
  frames w !! l = Some (r :: rs) → iloc0 l col w = (Ok (col r), w).
Proof. intros Hl. unfold iloc0, bind. by rewrite (run_rows _ _ _ Hl). Qed.

Lemma run_bind {A B : Type} (c : M F A) (k : A → M F B) w a w' :
  c w = (Ok a, w') → bind c k w = k a w'.
Proof. intros Hc. unfold bind. by rewrite Hc. Qed.

(** A call of [calculate_metrics] in a store that holds [data]. *)
Lemma run_calculate_metrics w data rs sector start_year end_year :
  frames w !! data = Some rs →
  calculate_metrics data sector start_year end_year w
  = (metrics_value rs sector start_year end_year,
     after_call w rs sector start_year end_year).
Proof.
  intros Hdata. unfold calculate_metrics, metrics_value, after_call.
  erewrite run_bind by (by apply run_getitem_mask).
  erewrite run_bind by (apply run_getitem_mask, new_frame_lookup_new).
  erewrite run_bind
    by (apply run_getitem_mask, new_frame_lookup_old, new_frame_lookup_new).
  erewrite run_bind
    by (apply run_len, new_frame_lookup_old, new_frame_lookup_new).
  erewrite run_bind by (apply run_len, new_frame_lookup_new).
  fold (sector_rows rs sector).
  fold (year_rows (sector_rows rs sector) start_year).
  fold (year_rows (sector_rows rs sector) end_year).
  destruct (year_rows (sector_rows rs sector) start_year) as [|s ss] eqn:Es;
    simpl; [done|].
  destruct (year_rows (sector_rows rs sector) end_year) as [|e es] eqn:Ee;
    simpl; [done|].
  erewrite run_bind
    by (eapply run_iloc0, new_frame_lookup_old, new_frame_lookup_new).
  erewrite run_bind by (eapply run_iloc0, new_frame_lookup_new).
  erewrite run_bind
    by (eapply run_iloc0, new_frame_lookup_old, new_frame_lookup_new).
  erewrite run_bind by (eapply run_iloc0, new_frame_lookup_new).
  unfold bind, int_div, raise, ret.
  destruct (end_year - start_year =? 0); reflexivity.
Qed.
End Runs.

(** ** Records of a dataset *)

Section Records.
Context {F : Type} {arith : Float64 F}.
Implicit Types (rs pre : DataFrame F) (r : Row F).

Lemma year_sector_rows_cons r rs sector year :
  year_rows (sector_rows (r :: rs) sector) year
  = if String.eqb (Отрасль r) sector && (Год r =? year)
    then r :: year_rows (sector_rows rs sector) year
    else year_rows (sector_rows rs sector) year.
Proof.
  unfold year_rows, sector_rows; simpl.
  destruct (String.eqb (Отрасль r) sector); simpl; [|done].
  by destruct (Год r =? year).
Qed.

Lemma record_at_test r sector year :
  String.eqb (Отрасль r) sector && (Год r =? year) = true
  ↔ record_at sector year r.
Proof.
  unfold record_at.
  rewrite andb_true_iff, String.eqb_eq, Z.eqb_eq. tauto.
Qed.

Lemma first_record_rows rs sector year r :
  first_record rs sector year r →
  ∃ rest, year_rows (sector_rows rs sector) year = r :: rest.
Proof.
  intros (pre & post & -> & Hr & Hpre).
  induction Hpre as [|x pre Hx _ IH]; cbn [app].
  - rewrite year_sector_rows_cons.
    apply record_at_test in Hr as ->. eauto.
  - rewrite year_sector_rows_cons.
    destruct (String.eqb (Отрасль x) sector && (Год x =? year)) eqn:E;
      [|exact IH].
    apply record_at_test in E. contradiction.
Qed.

Lemma no_record_rows rs sector year :
  ¬ has_record rs sector year →
  year_rows (sector_rows rs sector) year = [].
Proof.
  induction rs as [|r rs IH]; intros Hno; [done|].
  rewrite year_sector_rows_cons.
  destruct (String.eqb (Отрасль r) sector && (Год r =? year)) eqn:E.
  - apply record_at_test in E. destruct Hno. exists r. split; [left|done].
  - apply IH. intros (x & Hx & Hat). apply Hno. exists x. split; [by right|done].
Qed.

Lemma has_record_first rs sector year :
  has_record rs sector year → ∃ r, first_record rs sector year r.
Proof.
  induction rs as [|x rs IH]; intros (r & Hin & Hr).
  - by apply elem_of_nil in Hin.
  - destruct (String.eqb (Отрасль x) sector && (Год x =? year)) eqn:E.
    + apply record_at_test in E. exists x, [], rs.
      split; [done|]. split; [done|constructor].
    + assert (Hx : ¬ record_at sector year x).
      { intros Hx%record_at_test. congruence. }
      apply elem_of_cons in Hin as [->|Hin]; [contradiction|].
      destruct IH as (r' & pre & post & -> & Hr' & Hpre); [by exists r|].
      exists r', (x :: pre), post.
      split; [done|]. split; [done|by constructor].
Qed.

Lemma metrics_value_found rs sector start_year end_year s e :
  first_record rs sector start_year s →
  first_record rs sector end_year e →
  metrics_value rs sector start_year end_year
  = if end_year - start_year =? 0 then Raise ZeroDivisionError
    else Ok (Some (metrics_dict s e start_year end_year)).
Proof.
  intros [ss Hs]%first_record_rows [es He]%first_record_rows.
  unfold metrics_value. by rewrite Hs, He.
Qed.

Lemma metrics_value_missing rs sector start_year end_year :
  ¬ has_record rs sector start_year ∨ ¬ has_record rs sector end_year →
  metrics_value rs sector start_year end_year = Ok None.
Proof.
  unfold metrics_value. intros [Hno|Hno]; rewrite (no_record_rows _ _ _ Hno).
  - done.
  - by destruct (year_rows _ start_year).
Qed.

Lemma metrics_dict_dom s e start_year end_year :
  dom (metrics_dict s e start_year end_year)
  = ({[ "start_salary"; "end_salary"; "start_real_salary"; "end_real_salary";
        "nominal_growth"; "real_growth";
        "avg_nominal_growth"; "avg_real_growth" ]} : gset string).
Proof.
  unfold metrics_dict. rewrite !dom_insert_L, dom_empty_L. set_solver.
Qed.
End Records.

(** ** Properties of [calculate_metrics] *)

Section MetricsProperties.
Context {F : Type} {arith : Float64 F}.
Implicit Types (w : world F) (rs : DataFrame F) (s e r : Row F).
Local Open Scope py_scope.

Lemma metrics_dict_lookups s e start_year end_year :
  let m := metrics_dict s e start_year end_year in
  let exponent := truediv 1 (end_year - start_year)%Z in
  m !! "start_salary" = Some (Зарплата s)
  ∧ m !! "end_salary" = Some (Зарплата e)
  ∧ m !! "start_real_salary" = Some (Реальная_зарплата s)
  ∧ m !! "end_real_salary" = Some (Реальная_зарплата e)
  ∧ m !! "nominal_growth" = Some (Зарплата e / Зарплата s)
  ∧ m !! "real_growth" = Some (Реальная_зарплата e / Реальная_зарплата s)
  ∧ m !! "avg_nominal_growth"
    = Some (((Зарплата e / Зарплата s) ** exponent - of_int 1) * of_int 100)
  ∧ m !! "avg_real_growth"
    = Some (((Реальная_зарплата e / Реальная_зарплата s) ** exponent
             - of_int 1) * of_int 100).
Proof. repeat split; vm_compute; reflexivity. Qed.

Lemma metrics_found w data rs sector start_year end_year s e :
  frames w !! data = Some rs →
  first_record rs sector start_year s →
  first_record rs sector end_year e →
  start_year ≠ end_year →
  (calculate_metrics data sector start_year end_year w).1
  = Ok (Some (metrics_dict s e start_year end_year)).
Proof.
  intros Hdata Hs He Hne.
  rewrite (run_calculate_metrics _ _ _ _ _ _ Hdata); simpl.
  rewrite (metrics_value_found _ _ _ _ _ _ Hs He).
  destruct (Z.eqb_spec (end_year - start_year) 0); [lia|done].
Qed.
(** C1 (the code departs from it). When the dataset holds a record of the
    industry at the year, a call with [start_year = end_year] does not
    return [None]: the year difference is 0 and [1/years_diff] raises
    [ZeroDivisionError] (line 67). *)
Theorem calculate_metrics_same_year_raises w data rs sector year :
  frames w !! data = Some rs →
  has_record rs sector year →
  (calculate_metrics data sector year year w).1 = Raise ZeroDivisionError.
Proof.
  intros Hdata [r Hr]%has_record_first.
  rewrite (run_calculate_metrics _ _ _ _ _ _ Hdata); simpl.
  rewrite (metrics_value_found _ _ _ _ _ _ Hr Hr).
  by rewrite Z.sub_diag.
Qed.

(** C2. If the dataset holds no record of the industry at [start_year],
    or none at [end_year], [calculate_metrics] returns [None]; it raises
    no exception. *)
Theorem calculate_metrics_missing_record w data rs sector start_year end_year :
  frames w !! data = Some rs →
  ¬ has_record rs sector start_year ∨ ¬ has_record rs sector end_year →
  (calculate_metrics data sector start_year end_year w).1 = Ok None.
Proof.
  intros Hdata Hno.
  rewrite (run_calculate_metrics _ _ _ _ _ _ Hdata); simpl.
  by apply metrics_value_missing.
Qed.

(** C3. With a record at both years and [start_year < end_year], the
    returned [nominal_growth] is the end-year nominal salary divided by
    the start-year nominal salary, and [real_growth] is the end-year real
    salary divided by the start-year real salary. *)
Theorem calculate_metrics_growth w data rs sector start_year end_year s e :
  frames w !! data = Some rs →
  first_record rs sector start_year s →
  first_record rs sector end_year e →
  (start_year < end_year)%Z →
  ∃ m, (calculate_metrics data sector start_year end_year w).1 = Ok (Some m)
       ∧ m !! "nominal_growth" = Some (Зарплата e / Зарплата s)
       ∧ m !! "real_growth"
         = Some (Реальная_зарплата e / Реальная_зарплата s).
Proof.
  intros Hdata Hs He Hlt.
  exists (metrics_dict s e start_year end_year).
  split; [eapply metrics_found; eauto; lia|].
  pose proof (metrics_dict_lookups s e start_year end_year) as L.
  simpl in L. tauto.
Qed.

(** C4. With a record at both years and [start_year < end_year], the
    returned annualized rates are
    [(nominal_growth ** (1/years) - 1) * 100] and
    [(real_growth ** (1/years) - 1) * 100] for
    [years = end_year - start_year], on the returned growth ratios. *)
Theorem calculate_metrics_annualized w data rs sector start_year end_year :
  frames w !! data = Some rs →
  has_record rs sector start_year →
  has_record rs sector end_year →
  (start_year < end_year)%Z →
  let years := (end_year - start_year)%Z in
  ∃ m nominal_growth real_growth,
    (calculate_metrics data sector start_year end_year w).1 = Ok (Some m)
    ∧ m !! "nominal_growth" = Some nominal_growth
    ∧ m !! "real_growth" = Some real_growth
    ∧ m !! "avg_nominal_growth"
      = Some ((nominal_growth ** truediv 1 years - of_int 1) * of_int 100)
    ∧ m !! "avg_real_growth"
      = Some ((real_growth ** truediv 1 years - of_int 1) * of_int 100).
Proof.
  intros Hdata [s Hs]%has_record_first [e He]%has_record_first Hlt years.
  exists (metrics_dict s e start_year end_year),
    (Зарплата e / Зарплата s), (Реальная_зарплата e / Реальная_зарплата s).
  split; [eapply metrics_found; eauto; lia|].
  pose proof (metrics_dict_lookups s e start_year end_year) as L.
  simpl in L. subst years. tauto.
Qed.

(** C7. [calculate_metrics] is deterministic and free of side effects:
    its result depends on the rows of the dataset, the industry and the
    two years only (not on where the dataset lives or what else the store
    holds), a second call after the first returns the same result, and a
    call leaves the dataset, every other frame and the trace as they
    were. *)
Theorem calculate_metrics_pure w data rs sector start_year end_year :
  frames w !! data = Some rs →
  let run := calculate_metrics data sector start_year end_year in
  (∀ w' data', frames w' !! data' = Some rs →
     (calculate_metrics data' sector start_year end_year w').1 = (run w).1)
  ∧ (run (run w).2).1 = (run w).1
  ∧ frames (run w).2 !! data = Some rs
  ∧ frames w ⊆ frames (run w).2
  ∧ trace (run w).2 = trace w.
Proof.
  intros Hdata run. subst run.
  rewrite (run_calculate_metrics _ _ _ _ _ _ Hdata); simpl.
  assert (Hsub : frames w ⊆ frames (after_call w rs sector start_year end_year)).
  { unfold after_call.
    etrans; [apply new_frame_subseteq|].
    etrans; apply new_frame_subseteq. }
  assert (Hdata' : frames (after_call w rs sector start_year end_year) !! data
                   = Some rs)
    by (eapply lookup_weaken; eauto).
  split; [|split; [|split; [|split]]]; auto.
  - intros w' data' Hdata2.
    by rewrite (run_calculate_metrics _ _ _ _ _ _ Hdata2).
  - by rewrite (run_calculate_metrics _ _ _ _ _ _ Hdata').
Qed.

(** C9 (the code departs from it for equal years). When a (industry,
    year) has several records, the call uses the first one in dataset
    order for each of the two years and ignores the others: its result is
    the result on the dataset of these two rows alone, and for
    [start_year ≠ end_year] it returns a dict whose four salary values are
    those of the two first rows. For [start_year = end_year] it does fail,
    duplicates or not: it raises [ZeroDivisionError] (line 67). *)
Theorem calculate_metrics_first_record w data rs sector start_year end_year s e :
  frames w !! data = Some rs →
  first_record rs sector start_year s →
  first_record rs sector end_year e →
  let result := (calculate_metrics data sector start_year end_year w).1 in
  (∀ w' data', frames w' !! data' = Some [s; e] →
     (calculate_metrics data' sector start_year end_year w').1 = result)
  ∧ (start_year ≠ end_year →
     ∃ m, result = Ok (Some m)
          ∧ m !! "start_salary" = Some (Зарплата s)
          ∧ m !! "end_salary" = Some (Зарплата e)
          ∧ m !! "start_real_salary" = Some (Реальная_зарплата s)
          ∧ m !! "end_real_salary" = Some (Реальная_зарплата e))
  ∧ (start_year = end_year → result = Raise ZeroDivisionError).
Proof.
  intros Hdata Hs He result. subst result. split; [|split].
  - intros w' data' Hdata'.
    assert (Hs' : first_record [s; e] sector start_year s).
    { exists [], [e]. split; [done|]. split; [|constructor].
      by destruct Hs as (? & ? & _ & ? & _). }
    rewrite (run_calculate_metrics _ _ _ _ _ _ Hdata),
      (run_calculate_metrics _ _ _ _ _ _ Hdata'); simpl.
    rewrite (metrics_value_found _ _ _ _ _ _ Hs He).
    destruct (Z.eqb_spec (end_year - start_year) 0) as [Heq|Hne].
    + assert (end_year = start_year) as -> by lia.
      rewrite (metrics_value_found _ _ _ _ _ _ Hs' Hs').
      by rewrite Z.sub_diag.
    + assert (He' : first_record [s; e] sector end_year e).
      { exists [s], []. split; [done|]. split.
        - by destruct He as (? & ? & _ & ? & _).
        - constructor; [|constructor]. intros [_ Hy].
          destruct Hs as (? & ? & _ & [_ Hy'] & _). lia. }
      rewrite (metrics_value_found _ _ _ _ _ _ Hs' He').
      destruct (Z.eqb_spec (end_year - start_year) 0); [lia|done].
  - intros Hne. exists (metrics_dict s e start_year end_year).
    split; [by eapply metrics_found|].
    pose proof (metrics_dict_lookups s e start_year end_year) as L.
    simpl in L. tauto.
  - intros <-.
    rewrite (run_calculate_metrics _ _ _ _ _ _ Hdata); simpl.
    rewrite (metrics_value_found _ _ _ _ _ _ Hs He).
    by rewrite Z.sub_diag.
Qed.

(** C10. With a record at both years and [start_year ≠ end_year] the call
    returns, and what it returns is a dict with exactly the eight keys
    [start_salary], [end_salary], [start_real_salary], [end_real_salary],
    [nominal_growth], [real_growth], [avg_nominal_growth],
    [avg_real_growth]: the four salaries are the values of the rows
    themselves, the other four the results of the arithmetic on them,
    none of them rounded. *)
Theorem calculate_metrics_total w data rs sector start_year end_year :
  frames w !! data = Some rs →
  has_record rs sector start_year →
  has_record rs sector end_year →
  start_year ≠ end_year →
  ∃ m s e,
    (calculate_metrics data sector start_year end_year w).1 = Ok (Some m)
    ∧ first_record rs sector start_year s
    ∧ first_record rs sector end_year e
    ∧ dom m = {[ "start_salary"; "end_salary";
                 "start_real_salary"; "end_real_salary";
                 "nominal_growth"; "real_growth";
                 "avg_nominal_growth"; "avg_real_growth" ]}
    ∧ m !! "start_salary" = Some (Зарплата s)
    ∧ m !! "end_salary" = Some (Зарплата e)
    ∧ m !! "start_real_salary" = Some (Реальная_зарплата s)
    ∧ m !! "end_real_salary" = Some (Реальная_зарплата e)
    ∧ m !! "nominal_growth" = Some (Зарплата e / Зарплата s)
    ∧ m !! "real_growth" = Some (Реальная_зарплата e / Реальная_зарплата s)
    ∧ m !! "avg_nominal_growth"
      = Some (((Зарплата e / Зарплата s)
               ** truediv 1 (end_year - start_year)%Z - of_int 1)
              * of_int 100)
    ∧ m !! "avg_real_growth"
      = Some (((Реальная_зарплата e / Реальная_зарплата s)
               ** truediv 1 (end_year - start_year)%Z - of_int 1)
              * of_int 100).
Proof.
  intros Hdata [s Hs]%has_record_first [e He]%has_record_first Hne.
  exists (metrics_dict s e start_year end_year), s, e.
  split; [by eapply metrics_found|].
  split; [done|]. split; [done|].
  split; [apply metrics_dict_dom|].
  apply metrics_dict_lookups.
Qed.
End MetricsProperties.

(** ** Properties of the script body *)

Section DashboardProperties.
Context {F : Type} {arith : Float64 F}.
Implicit Types (w : world F) (rs : DataFrame F) (r : Row F).

Lemma isin_elem_of (s : string) (values : list string) :
  isin s values = true ↔ s ∈ values.
Proof.
  unfold isin. rewrite existsb_exists. split.
  - intros (x & Hx%list_elem_of_In & ->%String.eqb_eq). done.
  - intros Hs. exists s. split; [by apply list_elem_of_In|apply String.eqb_refl].
Qed.

Lemma mask_selected selected_sectors (year_range : Z * Z) r :
  isin (Отрасль r) selected_sectors
  && (Год r >=? year_range.1) && (Год r <=? year_range.2) = true
  ↔ selected selected_sectors year_range r.
Proof.
  unfold selected.
  rewrite !andb_true_iff, isin_elem_of, Z.geb_le, Z.leb_le. tauto.
Qed.

Lemma filter_mask (mask : Row F → bool) (P : Row F → Prop)
    `{∀ r, Decision (P r)} rs :
  (∀ r, mask r = true ↔ P r) → List.filter mask rs = filter P rs.
Proof.
  intros Hmask. induction rs as [|r rs IH]; [done|].
  cbn [List.filter]. rewrite list.filter_cons, IH.
  destruct (decide (P r)) as [HP|HP].
  - apply Hmask in HP. by rewrite HP.
  - destruct (mask r) eqn:E; [|done]. by apply Hmask in E.
Qed.

Lemma run_filtered_data w data rs selected_sectors year_range :
  frames w !! data = Some rs →
  filtered_data data selected_sectors year_range w
  = (Ok (fresh (dom (frames w))),
     new_frame w (filter (selected selected_sectors year_range) rs)).
Proof.
  intros Hdata. unfold filtered_data.
  rewrite (run_getitem_mask _ _ _ _ Hdata).
  by rewrite (filter_mask _ (selected selected_sectors year_range) rs
                (mask_selected selected_sectors year_range)).
Qed.

(** C6. The filtering step builds a frame that holds exactly the rows of
    the dataset whose industry is among the selected ones and whose year
    lies in the range, both ends included; the rows are those of the
    dataset themselves, in their order, and the dataset is left as it
    was. *)
Theorem filtered_data_selects w data rs selected_sectors (year_range : Z * Z) :
  frames w !! data = Some rs →
  ∃ filtered w' rs',
    filtered_data data selected_sectors year_range w = (Ok filtered, w')
    ∧ frames w' !! filtered = Some rs'
    ∧ rs' = filter (selected selected_sectors year_range) rs
    ∧ (∀ r, r ∈ rs' ↔ r ∈ rs
                      ∧ Отрасль r ∈ selected_sectors
                      ∧ (year_range.1 ≤ Год r ≤ year_range.2)%Z)
    ∧ rs' `sublist_of` rs
    ∧ frames w' !! data = Some rs.
Proof.
  intros Hdata.
  exists (fresh (dom (frames w))),
    (new_frame w (filter (selected selected_sectors year_range) rs)),
    (filter (selected selected_sectors year_range) rs).
  split; [by apply run_filtered_data|].
  split; [apply new_frame_lookup_new|].
  split; [done|].
  split; [|split].
  - intros r. rewrite list_elem_of_filter. unfold selected. tauto.
  - apply sublist_filter.
  - by apply new_frame_lookup_old.
Qed.

(** C8. When no row of the dataset passes the filters (no industry is
    selected, or the selected industries have no record in the year
    range), the script shows the warning of line 347 and nothing else,
    and makes no call of [calculate_metrics]. *)
Theorem dashboard_empty_selection w data rs selected_sectors year_range
    chart show_table :
  frames w !! data = Some rs →
  (∀ r, r ∈ rs → ¬ selected selected_sectors year_range r) →
  let run := dashboard data selected_sectors year_range chart show_table w in
  run.1 = Ok tt
  ∧ trace run.2 = trace w ++ [st_warning no_data_message]
  ∧ (∀ sector a b, metrics_call sector a b ∈ trace run.2 →
                   metrics_call sector a b ∈ trace w).
Proof.
  intros Hdata Hnone run.
  assert (Hrun : run = (Ok tt,
                        World (frames (new_frame w []))
                          (trace w ++ [st_warning no_data_message]))).
  { subst run. unfold dashboard.
    erewrite run_bind by (by apply run_filtered_data).
    assert (filter (selected selected_sectors year_range) rs = []) as ->.
    { apply elem_of_nil_inv. intros r [Hsel Hin]%list_elem_of_filter.
      by apply (Hnone r). }
    erewrite run_bind by (apply run_len, new_frame_lookup_new).
    reflexivity. }
  rewrite Hrun; simpl. split; [done|]. split; [done|].
  intros sector a b [Hin|Hin]%elem_of_app; [done|].
  apply list_elem_of_singleton in Hin. discriminate.
Qed.

Lemma nothing_selected year_range r : ¬ selected [] year_range r.
Proof. intros [Hin _]. by apply elem_of_nil in Hin. Qed.
End DashboardProperties.

(** ** The annualized rate in exact arithmetic *)

Section ExactRate.
Local Open Scope R_scope.


End ExactRate.

(** ** The annualized rate in binary64 *)

Section Binary64Rate.
Import Examples Compounding.



End Binary64Rate.

(** ** The properties at work on the example data (binary64) *)

Section Worked.
Import Examples.
Existing Instance Binary64.series_ops.

Local Ltac not_a_record :=
  let Hs := fresh in let Hy := fresh in
  intros [Hs Hy]; vm_compute in Hs, Hy; congruence.

Local Ltac first_record_at pre post :=
  exists pre, post;
  split; [reflexivity|];
  split; [split; reflexivity|];
  repeat (constructor; [not_a_record|]); constructor.

Local Ltac decided :=
  match goal with
  | |- ?P => apply (bool_decide_unpack P); vm_compute; exact I
  end.

Lemma calculate_metrics_same_year_raises_witness :
  has_record it "IT" 2000
  ∧ (calculate_metrics 0%nat "IT" 2000 2000 (start it)).1
    = Raise ZeroDivisionError.
Proof.
  assert (Hrec : has_record it "IT" 2000) by decided.
  split; [exact Hrec|].
  apply (calculate_metrics_same_year_raises (start it) 0%nat it);
    [reflexivity|exact Hrec].
Defined.

Lemma calculate_metrics_missing_record_witness :
  ¬ has_record it "IT" 2010
  ∧ (calculate_metrics 0%nat "IT" 2000 2010 (start it)).1 = Ok None.
Proof.
  assert (Hno : ¬ has_record it "IT" 2010) by decided.
  split; [exact Hno|].
  apply (calculate_metrics_missing_record (start it) 0%nat it);
    [reflexivity|right; exact Hno].
Defined.

Lemma calculate_metrics_growth_witness :
  ∃ m, (calculate_metrics 0%nat "IT" 2000 2020 (start it)).1 = Ok (Some m)
       ∧ m !! "nominal_growth" = Some 8%float
       ∧ m !! "real_growth" = Some 4%float.
Proof.
  assert (Hs : first_record it "IT" 2000 it2000)
    by first_record_at (@nil (Row float)) [it2020].
  assert (He : first_record it "IT" 2020 it2020)
    by first_record_at [it2000] (@nil (Row float)).
  assert (Hlt : (2000 < 2020)%Z) by lia.
  exact (calculate_metrics_growth (start it) 0%nat it "IT" 2000 2020
           it2000 it2020 eq_refl Hs He Hlt).
Defined.

Lemma calculate_metrics_annualized_witness :
  ∃ m nominal_growth real_growth,
    (calculate_metrics 0%nat "IT" 2000 2020 (start it)).1 = Ok (Some m)
    ∧ m !! "nominal_growth" = Some nominal_growth
    ∧ m !! "real_growth" = Some real_growth
    ∧ m !! "avg_nominal_growth"
      = Some ((nominal_growth ** truediv 1 20 - of_int 1) * of_int 100)%py
    ∧ m !! "avg_real_growth"
      = Some ((real_growth ** truediv 1 20 - of_int 1) * of_int 100)%py.
Proof.
  apply (calculate_metrics_annualized (start it) 0%nat it "IT" 2000 2020);
    [reflexivity|decided|decided|lia].
Defined.

Lemma calculate_metrics_pure_witness :
  let run := calculate_metrics 0%nat "IT" 2000 2020 in
  (∀ w' data', frames w' !! data' = Some it →
     (calculate_metrics data' "IT" 2000 2020 w').1 = (run (start it)).1)
  ∧ (run (run (start it)).2).1 = (run (start it)).1
  ∧ frames (run (start it)).2 !! 0%nat = Some it
  ∧ frames (start it) ⊆ frames (run (start it)).2
  ∧ trace (run (start it)).2 = trace (start it).
Proof.
  apply (calculate_metrics_pure (start it) 0%nat it "IT" 2000 2020).
  reflexivity.
Defined.

Lemma calculate_metrics_first_record_witness :
  (calculate_metrics 0%nat "IT" 2000 2000 (start it_twice)).1
  = Raise ZeroDivisionError
  ∧ let result := (calculate_metrics 0%nat "IT" 2000 2020 (start it_twice)).1 in
    (∀ w' data', frames w' !! data' = Some [it2000; it2020] →
       (calculate_metrics data' "IT" 2000 2020 w').1 = result)
    ∧ ∃ m, result = Ok (Some m)
           ∧ m !! "start_salary" = Some 10000%float
           ∧ m !! "end_salary" = Some 80000%float
           ∧ m !! "start_real_salary" = Some 10000%float
           ∧ m !! "end_real_salary" = Some 40000%float.
Proof.
  assert (Hs : first_record it_twice "IT" 2000 it2000)
    by first_record_at (@nil (Row float))
         [row "IT" 2000 1 1; row "Edu" 2020 7 7; it2020; row "IT" 2020 2 2].
  assert (He : first_record it_twice "IT" 2020 it2020)
    by first_record_at [it2000; row "IT" 2000 1 1; row "Edu" 2020 7 7]
         [row "IT" 2020 2 2].
  split.
  - apply (calculate_metrics_first_record (start it_twice) 0%nat it_twice
             "IT" 2000 2000 it2000 it2000 eq_refl Hs Hs).
    reflexivity.
  - intros result.
    destruct (calculate_metrics_first_record (start it_twice) 0%nat it_twice
                "IT" 2000 2020 it2000 it2020 eq_refl Hs He)
      as (Hsame & Hfound & _).
    split; [exact Hsame|]. apply Hfound. lia.
Defined.

Lemma calculate_metrics_total_witness :
  ∃ m s e,
    (calculate_metrics 0%nat "IT" 2000 2020 (start it)).1 = Ok (Some m)
    ∧ first_record it "IT" 2000 s
    ∧ first_record it "IT" 2020 e
    ∧ dom m = {[ "start_salary"; "end_salary";
                 "start_real_salary"; "end_real_salary";
                 "nominal_growth"; "real_growth";
                 "avg_nominal_growth"; "avg_real_growth" ]}
    ∧ m !! "start_salary" = Some (Зарплата s)
    ∧ m !! "end_salary" = Some (Зарплата e)
    ∧ m !! "start_real_salary" = Some (Реальная_зарплата s)
    ∧ m !! "end_real_salary" = Some (Реальная_зарплата e)
    ∧ m !! "nominal_growth" = Some (Зарплата e / Зарплата s)%py
    ∧ m !! "real_growth"
      = Some (Реальная_зарплата e / Реальная_зарплата s)%py
    ∧ m !! "avg_nominal_growth"
      = Some (((Зарплата e / Зарплата s)
               ** truediv 1 (2020 - 2000) - of_int 1) * of_int 100)%py
    ∧ m !! "avg_real_growth"
      = Some (((Реальная_зарплата e / Реальная_зарплата s)
               ** truediv 1 (2020 - 2000) - of_int 1) * of_int 100)%py.
Proof.
  apply (calculate_metrics_total (start it) 0%nat it "IT" 2000 2020);
    [reflexivity|decided|decided|lia].
Defined.

Lemma filtered_data_selects_witness :
  ∃ filtered w' rs',
    filtered_data 0%nat ["IT"] (2010, 2020) (start it_twice) = (Ok filtered, w')
    ∧ frames w' !! filtered = Some rs'
    ∧ rs' = filter (selected ["IT"] (2010, 2020)) it_twice
    ∧ (∀ r, r ∈ rs' ↔ r ∈ it_twice
                      ∧ Отрасль r ∈ ["IT"]
                      ∧ (2010 ≤ Год r ≤ 2020)%Z)
    ∧ rs' `sublist_of` it_twice
    ∧ frames w' !! 0%nat = Some it_twice.
Proof.
  apply (filtered_data_selects (start it_twice) 0%nat it_twice ["IT"] (2010, 2020)).
  reflexivity.
Defined.

Lemma dashboard_empty_selection_witness :
  let run := dashboard 0%nat [] (2000, 2020) Сравнение_роста true (start it) in
  run.1 = Ok tt
  ∧ trace run.2 = trace (start it) ++ [st_warning no_data_message]
  ∧ (∀ sector a b, metrics_call sector a b ∈ trace run.2 →
                   metrics_call sector a b ∈ trace (start it)).
Proof.
  apply (dashboard_empty_selection (start it) 0%nat it [] (2000, 2020)).
  - reflexivity.
  - intros r _. apply nothing_selected.
Defined.

(** The worked example: growth ratios 8 and 4 over 20 years, that is
    (with [pow_series] for [**]) about 11 and 7.2 percent a year. *)
Example it_growth :
  match (calculate_metrics 0%nat "IT" 2000 2020 (start it)).1 with
  | Ok (Some m) =>
      m !! "nominal_growth" = Some 8%float
      ∧ m !! "real_growth" = Some 4%float
      ∧ (∃ x, m !! "avg_nominal_growth" = Some x
              ∧ (10.875 <? x)%float = true ∧ (x <? 11)%float = true)
      ∧ (∃ x, m !! "avg_real_growth" = Some x
              ∧ (7.125 <? x)%float = true ∧ (x <? 7.25)%float = true)
  | _ => False
  end.
Proof. vm_compute. repeat split; eexists; repeat split. Qed.

(** The filters of the example: years 2010 to 2015, one industry. *)
Example it_filtered :
  (bind (filtered_data 0%nat ["IT"] (2010, 2015)) rows
     (start [it2000; row "IT" 2012 3 3; row "Edu" 2012 4 4; it2020])).1
  = Ok [row "IT" 2012 3 3].
Proof. vm_compute. reflexivity. Qed.

(** A selection with equal ends stops the script at its first call. *)
Example same_year_selection :
  let run := dashboard 0%nat ["IT"] (2000, 2000) Сравнение_роста true (start it) in
  run.1 = Raise ZeroDivisionError
  ∧ trace run.2 = [st_header "📈 Ключевые показатели"; st_columns 1;
                   with_enter 0; metrics_call "IT" 2000 2000].
Proof. vm_compute. split; reflexivity. Qed.
End Worked.

(** ** Reasoning about runs *)

Section RunLogic.
Context {F : Type} {arith : Float64 F}.
Context (data : loc) (rs : DataFrame F).
Implicit Types (w : world F) (e : exn).

Lemma runs_ret {A : Type} (a : A) (Q : A → list (event F) → Prop) :
  Q a [] → runs data rs (ret a) Q.
Proof.
  intros HQ w Hw. exists a, [], w.
  split; [done|]. split; [done|]. split; [by rewrite app_nil_r|done].
Qed.

Lemma runs_pure {A : Type} (c : M F A) (a : A)
    (Q : A → list (event F) → Prop) :
  (∀ w, c w = (Ok a, w)) → Q a [] → runs data rs c Q.
Proof.
  intros Hc HQ w Hw. exists a, [], w.
  split; [done|]. split; [done|]. split; [by rewrite app_nil_r|done].
Qed.

Lemma runs_emit (ev : event F) (Q : unit → list (event F) → Prop) :
  Q tt [ev] → runs data rs (emit ev) Q.
Proof.
  intros HQ w Hw. exists tt, [ev], (World (frames w) (trace w ++ [ev])).
  by repeat split.
Qed.

Lemma runs_bind {A B : Type} (c : M F A) (k : A → M F B)
    (Q : A → list (event F) → Prop) (R : B → list (event F) → Prop) :
  runs data rs c Q →
  (∀ a evs, Q a evs → runs data rs (k a) (λ b evs', R b (evs ++ evs'))) →
  runs data rs (bind c k) R.
Proof.
  intros Hc Hk w Hw.
  destruct (Hc w Hw) as (a & evs & w1 & Hrun & Hw1 & Ht1 & HQ).
  destruct (Hk a evs HQ w1 Hw1) as (b & evs' & w2 & Hrun' & Hw2 & Ht2 & HR).
  exists b, (evs ++ evs'), w2.
  split; [by rewrite (run_bind _ _ _ _ _ Hrun)|].
  split; [done|]. split; [|done].
  by rewrite Ht2, Ht1, app_assoc.
Qed.

Lemma runs_conseq {A : Type} (c : M F A) (Q Q' : A → list (event F) → Prop) :
  runs data rs c Q → (∀ a evs, Q a evs → Q' a evs) → runs data rs c Q'.
Proof.
  intros Hc HQ w Hw.
  destruct (Hc w Hw) as (a & evs & w1 & Hrun & Hw1 & Ht1 & Ha).
  exists a, evs, w1. auto.
Qed.

Lemma runs_getitem (d : gmap string F) (key : string) (v : F)
    (Q : F → list (event F) → Prop) :
  d !! key = Some v → Q v [] → runs data rs (getitem d key) Q.
Proof. intros Hd HQ. unfold getitem. rewrite Hd. by apply runs_ret. Qed.

Lemma runs_rows (Q : DataFrame F → list (event F) → Prop) :
  Q rs [] → runs data rs (rows data) Q.
Proof.
  intros HQ w Hw. exists rs, [], w.
  split; [by apply run_rows|]. split; [done|].
  split; [by rewrite app_nil_r|done].
Qed.

Lemma fails_bind_l {A B : Type} (c : M F A) (k : A → M F B) e :
  fails data rs c e → fails data rs (bind c k) e.
Proof.
  intros Hc w Hw. specialize (Hc w Hw).
  unfold bind. destruct (c w) as [[a|e'] w1]; simpl in *; congruence.
Qed.

Lemma fails_bind_r {A B : Type} (c : M F A) (k : A → M F B)
    (Q : A → list (event F) → Prop) e :
  runs data rs c Q → (∀ a evs, Q a evs → fails data rs (k a) e) →
  fails data rs (bind c k) e.
Proof.
  intros Hc Hk w Hw.
  destruct (Hc w Hw) as (a & evs & w1 & Hrun & Hw1 & _ & HQ).
  rewrite (run_bind _ _ _ _ _ Hrun). by apply (Hk a evs).
Qed.

Lemma first_row_Some sector year r :
  first_row rs sector year = Some r ↔ first_record rs sector year r.
Proof.
  unfold first_row. split.
  - intros Hhead.
    destruct (decide (has_record rs sector year)) as [Hrec|Hno].
    + destruct (has_record_first _ _ _ Hrec) as [r' Hr'].
      destruct (first_record_rows _ _ _ _ Hr') as [rest Hrows].
      rewrite Hrows in Hhead. by simplify_eq/=.
    + by rewrite (no_record_rows _ _ _ Hno) in Hhead.
  - intros [rest Hrows]%first_record_rows. by rewrite Hrows.
Qed.

Lemma first_row_None sector year :
  first_row rs sector year = None ↔ ¬ has_record rs sector year.
Proof.
  split.
  - intros Hnone [r Hr]%has_record_first.
    apply first_row_Some in Hr. congruence.
  - intros Hno. unfold first_row. by rewrite (no_record_rows _ _ _ Hno).
Qed.

Lemma metrics_value_ne sector start_year end_year :
  start_year ≠ end_year →
  metrics_value rs sector start_year end_year
  = Ok (metrics_opt rs sector start_year end_year).
Proof.
  intros Hne. unfold metrics_value, metrics_opt, first_row.
  destruct (year_rows (sector_rows rs sector) start_year) as [|s ?]; [done|].
  destruct (year_rows (sector_rows rs sector) end_year) as [|e ?]; [done|].
  simpl. destruct (Z.eqb_spec (end_year - start_year) 0); [lia|done].
Qed.

Lemma metrics_value_same sector year :
  metrics_value rs sector year year
  = match first_row rs sector year with
    | Some _ => Raise ZeroDivisionError
    | None => Ok None
    end.
Proof.
  unfold metrics_value, first_row.
  destruct (year_rows (sector_rows rs sector) year) as [|s ?]; [done|].
  simpl. by rewrite Z.sub_diag.
Qed.

Lemma after_call_lookup w sector start_year end_year :
  frames w !! data = Some rs →
  frames (after_call w rs sector start_year end_year) !! data = Some rs.
Proof.
  intros Hw. unfold after_call. by do 3 apply new_frame_lookup_old.
Qed.

Lemma runs_metrics_of sector (year_range : Z * Z) :
  year_range.1 ≠ year_range.2 →
  runs data rs (metrics_of data sector year_range)
    (λ m evs, m = metrics_opt rs sector year_range.1 year_range.2
              ∧ evs = [metrics_call sector year_range.1 year_range.2]).
Proof.
  intros Hne w Hw. unfold metrics_of.
  erewrite run_bind by reflexivity.
  rewrite (run_calculate_metrics _ _ rs) by done.
  rewrite (metrics_value_ne _ _ _ Hne).
  eexists _, _, _. split; [reflexivity|].
  split; [by apply after_call_lookup|]. by split.
Qed.

Lemma runs_metrics_of_none sector (year_range : Z * Z) :
  ¬ has_record rs sector year_range.1 ∨ ¬ has_record rs sector year_range.2 →
  runs data rs (metrics_of data sector year_range)
    (λ m evs, m = None
              ∧ evs = [metrics_call sector year_range.1 year_range.2]).
Proof.
  intros Hno w Hw. unfold metrics_of.
  erewrite run_bind by reflexivity.
  rewrite (run_calculate_metrics _ _ rs) by done.
  rewrite (metrics_value_missing _ _ _ _ Hno).
  eexists _, _, _. split; [reflexivity|].
  split; [by apply after_call_lookup|]. by split.
Qed.

Lemma fails_metrics_of_same sector year :
  has_record rs sector year →
  fails data rs (metrics_of data sector (year, year)) ZeroDivisionError.
Proof.
  intros [r Hr]%has_record_first w Hw. unfold metrics_of.
  erewrite run_bind by reflexivity.
  rewrite (run_calculate_metrics _ _ rs) by done. simpl.
  rewrite metrics_value_same.
  apply first_row_Some in Hr. by rewrite Hr.
Qed.

Lemma metrics_dict_truthy (s e : Row F) start_year end_year :
  truthy (Some (metrics_dict s e start_year end_year))
  = Some (metrics_dict s e start_year end_year).
Proof.
  unfold truthy.
  assert (size (metrics_dict s e start_year end_year) = 8%nat) as ->
    by (vm_compute; reflexivity).
  done.
Qed.
End RunLogic.

(** ** The outcomes of a call and the metric loops *)

Section Loops.
Context {F : Type} {arith : Float64 F}.
Implicit Types (w : world F) (rs : DataFrame F).
Local Open Scope py_scope.

(** A call returns [None] only when a record is missing, raises only for
    equal years with a record at that year (and then
    [ZeroDivisionError]), and returns a dict in every other case. *)
Theorem calculate_metrics_outcomes w data rs sector start_year end_year :
  frames w !! data = Some rs →
  let result := (calculate_metrics data sector start_year end_year w).1 in
  (result = Ok None
   ↔ ¬ has_record rs sector start_year ∨ ¬ has_record rs sector end_year)
  ∧ (∀ e, result = Raise e
          ↔ e = ZeroDivisionError ∧ start_year = end_year
            ∧ has_record rs sector start_year)
  ∧ ((∃ m, result = Ok (Some m))
     ↔ has_record rs sector start_year ∧ has_record rs sector end_year
       ∧ start_year ≠ end_year).
Proof.
  intros Hdata result. subst result.
  rewrite (run_calculate_metrics _ _ _ _ _ _ Hdata); simpl.
  destruct (decide (has_record rs sector start_year)) as [Hs|Hs];
    [destruct (decide (has_record rs sector end_year)) as [He|He]|].
  - destruct (has_record_first _ _ _ Hs) as [s Hs'].
    destruct (has_record_first _ _ _ He) as [e He'].
    rewrite (metrics_value_found _ _ _ _ _ _ Hs' He').
    destruct (Z.eqb_spec (end_year - start_year) 0) as [Heq|Hne].
    + assert (start_year = end_year) by lia.
      split; [|split]; [split; [done|tauto]| |split; [by intros [? ?]|tauto]].
      intros e'. split; [by intros [= <-]|by intros (-> & _)].
    + assert (start_year ≠ end_year) by lia.
      split; [|split]; [split; [done|tauto]| |split; [done|eauto]].
      intros e'. split; [done|tauto].
  - rewrite metrics_value_missing by tauto.
    split; [|split]; [tauto| |split; [by intros [? ?]|tauto]].
    intros e'. split; [done|intros (_ & <- & _)]. contradiction.
  - rewrite metrics_value_missing by tauto.
    split; [|split]; [tauto| |split; [by intros [? ?]|tauto]].
    intros e'. split; [done|tauto].
Qed.

Lemma runs_growth_data data rs selected_sectors (year_range : Z * Z) :
  year_range.1 ≠ year_range.2 →
  runs data rs (growth_data data selected_sectors year_range)
    (λ rows evs,
       rows = omap (growth_row rs year_range) selected_sectors
       ∧ evs = (λ sector, metrics_call sector year_range.1 year_range.2)
                 <$> selected_sectors).
Proof.
  intros Hne. induction selected_sectors as [|sector rest IH].
  { by apply runs_ret. }
  cbn [growth_data].
  eapply runs_bind; [by apply runs_metrics_of|].
  intros m evs [-> ->].
  unfold metrics_opt. cbn [omap list_omap fmap list_fmap]. unfold growth_row at 1.
  destruct (first_row rs sector year_range.1) as [s|];
    [destruct (first_row rs sector year_range.2) as [e|]|].
  - rewrite metrics_dict_truthy.
    pose proof (metrics_dict_lookups s e year_range.1 year_range.2)
      as (_ & _ & _ & _ & L1 & L2 & _).
    eapply runs_bind.
    { apply (runs_pure _ _ _ [(sector, Зарплата e / Зарплата s,
                               Реальная_зарплата e / Реальная_зарплата s)]
               (λ a evs, a = [(sector, Зарплата e / Зарплата s,
                               Реальная_зарплата e / Реальная_зарплата s)]
                         ∧ evs = [])); [|done].
      intros w. unfold bind, getitem. by rewrite L1, L2. }
    intros row evs [-> ->].
    eapply runs_bind; [exact IH|].
    intros more evs [-> ->]. apply runs_ret. simpl. by rewrite app_nil_r.
  - simpl. eapply runs_bind.
    { by apply (runs_ret _ _ [] (λ a evs, a = [] ∧ evs = [])). }
    intros row evs [-> ->].
    eapply runs_bind; [exact IH|].
    intros more evs [-> ->]. apply runs_ret. simpl. by rewrite app_nil_r.
  - simpl. eapply runs_bind.
    { by apply (runs_ret _ _ [] (λ a evs, a = [] ∧ evs = [])). }
    intros row evs [-> ->].
    eapply runs_bind; [exact IH|].
    intros more evs [-> ->]. apply runs_ret. simpl. by rewrite app_nil_r.
Qed.

Lemma growth_row_Some rs (year_range : Z * Z) sector row :
  growth_row rs year_range sector = Some row
  ↔ ∃ s e, first_record rs sector year_range.1 s
           ∧ first_record rs sector year_range.2 e
           ∧ row = (sector, Зарплата e / Зарплата s,
                    Реальная_зарплата e / Реальная_зарплата s).
Proof.
  unfold growth_row. split.
  - destruct (first_row rs sector year_range.1) as [s|] eqn:Es; [|done].
    destruct (first_row rs sector year_range.2) as [e|] eqn:Ee; [|done].
    intros [= <-]. exists s, e. by rewrite <- !first_row_Some.
  - intros (s & e & Hs%first_row_Some & He%first_row_Some & ->).
    by rewrite Hs, He.
Qed.

Lemma growth_row_is_Some rs (year_range : Z * Z) sector :
  is_Some (growth_row rs year_range sector)
  ↔ has_record rs sector year_range.1 ∧ has_record rs sector year_range.2.
Proof.
  unfold growth_row. split.
  - destruct (first_row rs sector year_range.1) as [s|] eqn:Es;
      [|by intros [? ?]].
    destruct (first_row rs sector year_range.2) as [e|] eqn:Ee;
      [|by intros [? ?]].
    intros _. split; apply dec_stable; rewrite <- first_row_None; congruence.
  - intros [Hs He].
    destruct (first_row rs sector year_range.1) as [s|] eqn:Es;
      [|by apply first_row_None in Es].
    destruct (first_row rs sector year_range.2) as [e|] eqn:Ee;
      [|by apply first_row_None in Ee].
    eauto.
Qed.

(** For a range of two different years, the loop of lines 186-194 builds
    one row for each selected industry that has a record at both ends of
    the range, in the order of the selection, with the growth ratios of
    its first records there; an industry without one of the two records is
    left out, and the loop shows nothing at all: the trace gains the
    records of its calls of [calculate_metrics], one for each selected
    industry, and no output. *)
Theorem growth_data_rows w data rs selected_sectors (year_range : Z * Z) :
  frames w !! data = Some rs →
  year_range.1 ≠ year_range.2 →
  ∃ rows,
    (growth_data data selected_sectors year_range w).1 = Ok rows
    ∧ trace (growth_data data selected_sectors year_range w).2
      = trace w ++ ((λ sector, metrics_call sector year_range.1 year_range.2)
                      <$> selected_sectors)
    ∧ rows = omap (growth_row rs year_range) selected_sectors
    ∧ rows.*1.*1 = filter (λ sector, has_record rs sector year_range.1
                                     ∧ has_record rs sector year_range.2)
                     selected_sectors
    ∧ (∀ sector a b,
         (sector, a, b) ∈ rows
         ↔ sector ∈ selected_sectors
           ∧ ∃ s e, first_record rs sector year_range.1 s
                    ∧ first_record rs sector year_range.2 e
                    ∧ a = Зарплата e / Зарплата s
                    ∧ b = Реальная_зарплата e / Реальная_зарплата s).
Proof.
  intros Hdata Hne.
  destruct (runs_growth_data data rs selected_sectors year_range Hne w Hdata)
    as (rows & evs & w' & Hrun & _ & Ht & -> & ->).
  exists (omap (growth_row rs year_range) selected_sectors).
  rewrite Hrun. cbn [fst snd].
  split; [reflexivity|]. split; [exact Ht|]. split; [reflexivity|]. split.
  - clear Hrun Ht. induction selected_sectors as [|sector rest IH]; [done|].
    cbn [omap list_omap]. rewrite filter_cons.
    destruct (growth_row rs year_range sector) as [row|] eqn:E.
    + assert (is_Some (growth_row rs year_range sector)) as Hrec by eauto.
      apply growth_row_is_Some in Hrec.
      rewrite decide_True by done.
      apply growth_row_Some in E as (s & e & _ & _ & ->).
      cbn [fmap list_fmap]. by rewrite <- IH.
    + rewrite decide_False; [done|].
      intros Hrec%growth_row_is_Some. rewrite E in Hrec. by destruct Hrec.
  - intros sector a b. rewrite list_elem_of_omap. split.
    + intros (x & Hx & Hrow). pose proof Hrow as Hrow'.
      apply growth_row_Some in Hrow as (s & e & Hs & He & [= <- -> ->]).
      split; [done|]. by exists s, e.
    + intros (Hin & s & e & Hs & He & -> & ->).
      exists sector. split; [done|]. apply growth_row_Some. by exists s, e.
Qed.
End Loops.

(** ** What the script shows *)

Section Shown.
Context {F : Type} {arith : Float64 F}.
Implicit Types (w : world F) (rs : DataFrame F) (P : event F → Prop).
Local Open Scope py_scope.

Lemma emits_ret P {A : Type} (a : A) : emits P (ret a).
Proof. intros w. exists []. by rewrite app_nil_r. Qed.

Lemma emits_raise P {A : Type} (e : exn) : emits P (raise (A := A) e).
Proof. intros w. exists []. by rewrite app_nil_r. Qed.

Lemma emits_emit P (ev : event F) : P ev → emits P (emit ev).
Proof. intros HP w. exists [ev]. split; [done|by constructor]. Qed.

Lemma emits_alloc P (df : DataFrame F) : emits P (alloc df).
Proof. intros w. exists []. by rewrite app_nil_r. Qed.

Lemma emits_rows P (l : loc) : emits P (rows (F := F) l).
Proof.
  intros w. exists []. unfold rows.
  destruct (frames w !! l); by rewrite app_nil_r.
Qed.

Lemma emits_bind P {A B : Type} (c : M F A) (k : A → M F B) :
  emits P c → (∀ a, emits P (k a)) → emits P (bind c k).
Proof.
  intros Hc Hk w. destruct (Hc w) as (evs & Ht & Hevs).
  unfold bind. destruct (c w) as [[a|e] w1]; simpl in *; [|eauto].
  destruct (Hk a w1) as (evs' & Ht' & Hevs').
  exists (evs ++ evs'). split; [by rewrite Ht', Ht, app_assoc|].
  by apply Forall_app.
Qed.

Lemma emits_for_each P {A : Type} (l : list A) (body : A → M F unit) :
  (∀ x, emits P (body x)) → emits P (for_each l body).
Proof.
  intros Hbody. induction l as [|x l IH]; [apply emits_ret|].
  apply emits_bind; [apply Hbody|intros _; apply IH].
Qed.

Local Ltac emits_auto :=
  repeat first
    [ apply emits_ret | apply emits_raise | apply emits_alloc
    | apply emits_rows
    | apply emits_emit; solve [intros [? ?]; discriminate]
    | apply emits_bind; [|intros ?]
    | apply emits_for_each; intros ?
    | match goal with
      | |- emits _ (match ?x with _ => _ end) => destruct x
      end ].

Lemma emits_calculate_metrics P data sector start_year end_year :
  emits P (calculate_metrics data sector start_year end_year).
Proof.
  unfold calculate_metrics, getitem_mask, len, iloc0, int_div. emits_auto.
Qed.

Lemma emits_metrics_of data sector (year_range : Z * Z) :
  emits (λ ev, ¬ is_warning ev) (metrics_of data sector year_range).
Proof.
  unfold metrics_of.
  apply emits_bind; [emits_auto|intros _; apply emits_calculate_metrics].
Qed.

Lemma emits_growth_data data sectors (year_range : Z * Z) :
  emits (λ ev, ¬ is_warning ev) (growth_data data sectors year_range).
Proof.
  induction sectors as [|sector rest IH]; cbn [growth_data]; [apply emits_ret|].
  apply emits_bind; [apply emits_metrics_of|intros metrics].
  apply emits_bind; [unfold getitem; emits_auto|intros row].
  apply emits_bind; [apply IH|intros more; apply emits_ret].
Qed.

Lemma emits_best_real_growth data sectors (year_range : Z * Z) best :
  emits (λ ev, ¬ is_warning ev)
    (best_real_growth data sectors year_range best).
Proof.
  revert best.
  induction sectors as [|sector rest IH]; intros best;
    cbn [best_real_growth]; [apply emits_ret|].
  apply emits_bind; [apply emits_metrics_of|intros metrics].
  apply emits_bind; [unfold getitem; emits_auto|intros best'; apply IH].
Qed.

Lemma emits_key_metrics data selected_sectors (year_range : Z * Z) :
  emits (λ ev, ¬ is_warning ev) (key_metrics data selected_sectors year_range).
Proof.
  unfold key_metrics. apply emits_bind; [emits_auto|intros _].
  apply emits_bind; [emits_auto|intros _].
  apply emits_for_each. intros [i sector].
  apply emits_bind; [emits_auto|intros _].
  apply emits_bind; [apply emits_metrics_of|intros metrics].
  unfold getitem. emits_auto.
Qed.

Lemma emits_charts data filtered selected_sectors (year_range : Z * Z) chart :
  emits (λ ev, ¬ is_warning ev)
    (charts data filtered selected_sectors year_range chart).
Proof.
  unfold charts. apply emits_bind; [emits_auto|intros _].
  apply emits_bind; [emits_auto|intros _].
  destruct chart; try solve [emits_auto].
  apply emits_bind; [apply emits_growth_data|intros growth]. emits_auto.
Qed.

Lemma emits_table filtered show_table :
  emits (λ ev, ¬ is_warning ev) (table (F := F) filtered show_table).
Proof. unfold table. emits_auto. Qed.

Lemma emits_conclusions data filtered selected_sectors (year_range : Z * Z) :
  emits (λ ev, ¬ is_warning ev)
    (conclusions data filtered selected_sectors year_range).
Proof.
  unfold conclusions, len.
  do 4 (apply emits_bind; [emits_auto|intros _]).
  apply emits_bind.
  { apply emits_for_each. intros sector.
    apply emits_bind; [apply emits_metrics_of|intros metrics].
    unfold getitem. emits_auto. }
  intros _. do 3 (apply emits_bind; [emits_auto|intros _]).
  apply emits_bind.
  { apply emits_for_each. intros sector.
    apply emits_bind; [apply emits_metrics_of|intros metrics].
    unfold getitem. emits_auto. }
  intros _. do 2 (apply emits_bind; [emits_auto|intros _]).
  apply emits_bind; [emits_auto|intros n].
  destruct (0 <? n)%nat; [|apply emits_ret].
  apply emits_bind; [emits_auto|intros rs].
  do 3 (apply emits_bind; [emits_auto|intros _]).
  destruct (1 <? length selected_sectors)%nat; [|apply emits_ret].
  apply emits_bind; [apply emits_best_real_growth|intros best]. emits_auto.
Qed.

Lemma filter_selected_nil rs selected_sectors (year_range : Z * Z) :
  filter (selected selected_sectors year_range) rs = []
  ↔ ∀ r, r ∈ rs → ¬ selected selected_sectors year_range r.
Proof.
  split.
  - intros Hnil r Hin Hsel. by apply (filter_nil_not_elem_of _ _ _ Hnil Hsel).
  - intros Hnone. apply elem_of_nil_inv.
    intros r [Hsel Hin]%list_elem_of_filter. by apply (Hnone r).
Qed.

(** The script shows the warning of line 347 exactly when no row of the
    dataset passes the filters; whenever a row passes, whatever else
    happens in the run, no warning is shown. *)
Theorem dashboard_warning_iff w data rs selected_sectors year_range
    chart show_table :
  frames w !! data = Some rs →
  let run := dashboard data selected_sectors year_range chart show_table w in
  ∃ evs, trace run.2 = trace w ++ evs
         ∧ (Exists is_warning evs
            ↔ ∀ r, r ∈ rs → ¬ selected selected_sectors year_range r)
         ∧ (Exists is_warning evs → evs = [st_warning no_data_message]).
Proof.
  intros Hdata run. subst run. unfold dashboard.
  erewrite run_bind by (by apply run_filtered_data).
  erewrite run_bind by (apply run_len, new_frame_lookup_new).
  pose proof (filter_selected_nil rs selected_sectors year_range) as Hnil.
  destruct (filter (selected selected_sectors year_range) rs) as [|r frs] eqn:E.
  - exists [st_warning no_data_message]. split; [done|].
    split; [|done]. split; [by intros _; apply Hnil|].
    intros _. constructor. by eexists.
  - cbn [length Nat.ltb Nat.leb].
    set (w1 := new_frame w (r :: frs)).
    destruct (emits_bind (λ ev, ¬ is_warning ev)
                (key_metrics data selected_sectors year_range)
                (λ _, bind (charts data (fresh (dom (frames w))) selected_sectors
                              year_range chart)
                        (λ _, bind (table (fresh (dom (frames w))) show_table)
                                (λ _, conclusions data (fresh (dom (frames w)))
                                        selected_sectors year_range)))
                (emits_key_metrics _ _ _)) with w1 as (evs & Ht & Hevs).
    { intros _. apply emits_bind; [apply emits_charts|intros _].
      apply emits_bind; [apply emits_table|intros _].
      apply emits_conclusions. }
    exists evs. split; [exact Ht|].
    assert (Hquiet : ¬ Exists is_warning evs).
    { rewrite Exists_exists. intros (ev & Hin & Hev).
      rewrite Forall_forall in Hevs. by apply (Hevs ev). }
    split; [|by intros ?]. split; [by intros ?|].
    intros Hnone. by apply Hnil in Hnone.
Qed.
End Shown.

(** ** A range of one year, and the comparison chart *)

Section Sections.
Context {F : Type} {arith : Float64 F}.
Implicit Types (w : world F) (rs : DataFrame F).
Local Open Scope py_scope.

Lemma Exists_zip_seq {A : Type} (Q : A → Prop) (l : list A) (n : nat) :
  Exists Q l → Exists (λ x, Q x.2) (zip (seq n (length l)) l).
Proof.
  intros HQ. revert n. induction HQ as [x l Hx|x l _ IH]; intros n; simpl.
  - by left.
  - right. apply IH.
Qed.

Lemma fails_for_each data rs {A : Type} (P : A → Prop) `{∀ x, Decision (P x)}
    (l : list A) (body : A → M F unit) e :
  (∀ x, P x → fails data rs (body x) e) →
  (∀ x, ¬ P x → runs data rs (body x) (λ _ _, True)) →
  Exists P l → fails data rs (for_each l body) e.
Proof.
  intros Hfail Hrun. induction l as [|x l IH]; intros HP.
  { by apply Exists_nil in HP. }
  cbn [for_each]. destruct (decide (P x)) as [Hx|Hx].
  - by apply fails_bind_l, Hfail.
  - eapply fails_bind_r; [by apply Hrun|]. intros _ _ _.
    apply IH. by apply Exists_cons in HP as [?|?].
Qed.

Lemma fails_key_metrics data rs selected_sectors year :
  Exists (λ sector, has_record rs sector year) selected_sectors →
  fails data rs (key_metrics data selected_sectors (year, year))
    ZeroDivisionError.
Proof.
  intros Hrec. unfold key_metrics.
  eapply fails_bind_r; [by apply (runs_emit _ _ _ (λ _ _, True))|intros _ _ _].
  eapply fails_bind_r; [by apply (runs_emit _ _ _ (λ _ _, True))|intros _ _ _].
  apply (fails_for_each _ _ (λ x, has_record rs x.2 year)).
  - intros [i sector] Hx.
    eapply fails_bind_r; [by apply (runs_emit _ _ _ (λ _ _, True))|intros _ _ _].
    by apply fails_bind_l, fails_metrics_of_same.
  - intros [i sector] Hx.
    eapply runs_bind; [by apply (runs_emit _ _ _ (λ _ _, True))|intros _ _ _].
    eapply runs_bind; [apply runs_metrics_of_none; by left|].
    intros m evs [-> _]. cbn [truthy].
    eapply runs_bind; [by apply (runs_ret _ _ _ (λ _ _, True))|intros _ _ _].
    by apply runs_emit.
  - by apply (Exists_zip_seq (λ sector, has_record rs sector year)).
Qed.

(** When the two ends of the year range are the same year and some row of
    the dataset passes the filters, the script stops with
    [ZeroDivisionError]: the first selected industry with a record at that
    year makes [calculate_metrics] divide by zero. *)
Theorem dashboard_same_year_raises w data rs selected_sectors year
    chart show_table :
  frames w !! data = Some rs →
  (∃ r, r ∈ rs ∧ selected selected_sectors (year, year) r) →
  (dashboard data selected_sectors (year, year) chart show_table w).1
  = Raise ZeroDivisionError.
Proof.
  intros Hdata (r & Hin & Hsel). unfold dashboard.
  erewrite run_bind by (by apply run_filtered_data).
  erewrite run_bind by (apply run_len, new_frame_lookup_new).
  destruct (filter (selected selected_sectors (year, year)) rs)
    as [|r' frs] eqn:E.
  { by destruct (filter_nil_not_elem_of _ _ _ E Hsel). }
  cbn [length Nat.ltb Nat.leb].
  apply (fails_bind_l data rs); [|by apply new_frame_lookup_old].
  apply fails_key_metrics. apply Exists_exists.
  destruct Hsel as (Hsec & Hlo & Hhi); simpl in *.
  exists (Отрасль r). split; [done|].
  exists r. split; [done|]. split; [done|lia].
Qed.

Lemma runs_emit_eq data rs (ev : event F) :
  runs data rs (emit ev) (λ _ evs, evs = [ev]).
Proof. by apply runs_emit. Qed.

Lemma runs_charts_growth data rs filtered selected_sectors (year_range : Z * Z) :
  year_range.1 ≠ year_range.2 →
  runs data rs
    (charts data filtered selected_sectors year_range Сравнение_роста)
    (λ _ evs, evs = comparison_events rs selected_sectors year_range).
Proof.
  intros Hne. unfold charts, comparison_events.
  eapply runs_bind; [apply runs_emit_eq|].
  intros [] evs1 ->.
  eapply runs_bind; [apply runs_emit_eq|].
  intros [] evs2 ->.
  eapply runs_bind; [by apply runs_growth_data|].
  intros growth evs3 [-> ->].
  destruct (omap _ selected_sectors) as [|row rows].
  - by apply runs_ret.
  - by apply runs_emit.
Qed.

Lemma growth_rows_exists rs (selected_sectors : list string)
    (year_range : Z * Z) :
  (∃ row, row ∈ omap (growth_row rs year_range) selected_sectors)
  ↔ ∃ sector, sector ∈ selected_sectors
              ∧ has_record rs sector year_range.1
              ∧ has_record rs sector year_range.2.
Proof.
  split.
  - intros (row & (sector & Hsec & Hrow)%list_elem_of_omap).
    exists sector. split; [done|]. apply growth_row_is_Some. by eexists.
  - intros (sector & Hsec & [row Hrow]%growth_row_is_Some).
    exists row. apply list_elem_of_omap. eauto.
Qed.

(** For a range of two different years, the section of the comparison
    chart ends without an exception and shows exactly
    [comparison_events]: the header, the select box and, when some
    selected industry has a record at both ends of the range, one chart
    of the rows of [growth_data]. When no selected industry has both
    records there is no chart and no message: besides the records of the
    calls, the header and the select box are all that is shown. *)
Theorem comparison_chart_shown w data rs filtered selected_sectors
    (year_range : Z * Z) :
  frames w !! data = Some rs →
  year_range.1 ≠ year_range.2 →
  let run := charts data filtered selected_sectors year_range Сравнение_роста w in
  let some_sector :=
    ∃ sector, sector ∈ selected_sectors
              ∧ has_record rs sector year_range.1
              ∧ has_record rs sector year_range.2 in
  run.1 = Ok tt
  ∧ trace run.2 = trace w ++ comparison_events rs selected_sectors year_range
  ∧ (Exists is_chart (comparison_events rs selected_sectors year_range)
     ↔ some_sector)
  ∧ (¬ some_sector →
     ∃ title label,
       trace run.2
       = trace w ++ st_header title :: st_selectbox label
                    :: ((λ sector, metrics_call sector year_range.1 year_range.2)
                          <$> selected_sectors)).
Proof.
  intros Hdata Hne run some_sector. subst run some_sector.
  destruct (runs_charts_growth data rs filtered selected_sectors year_range
              Hne w Hdata) as ([] & evs & w' & -> & _ & Ht & ->).
  cbn [fst snd]. split; [done|]. split; [done|].
  pose proof (growth_rows_exists rs selected_sectors year_range) as Hrows.
  split.
  - unfold comparison_events.
    destruct (omap (growth_row rs year_range) selected_sectors)
      as [|row rows].
    + rewrite app_nil_r. split.
      * intros [[(fig & [=])|[(fig & [=])|[]%Exists_nil]%Exists_cons]%Exists_cons
                |(ev & (sector & -> & _)%list_elem_of_fmap
                     & (fig & [=]))%Exists_exists]%Exists_app.
      * intros [row Hrow%elem_of_nil]%Hrows. done.
    + split.
      * intros _. apply Hrows. exists row. left.
      * intros _. rewrite !Exists_app. do 2 right. left. by eexists.
  - intros Hnone. rewrite Ht. unfold comparison_events.
    destruct (omap (growth_row rs year_range) selected_sectors)
      as [|row rows].
    + rewrite app_nil_r. by eexists _, _.
    + destruct Hnone. apply Hrows. exists row. left.
Qed.
End Sections.

(** ** The leader by real growth (lines 333-344) *)

Section Leader.
Context {F : Type} {arith : Float64 F}.
Implicit Types (w : world F) (rs : DataFrame F) (best : F * string)
  (rows : list (string * F * F)).
Local Open Scope py_scope.

Lemma runs_best_real_growth data rs selected_sectors (year_range : Z * Z) best :
  year_range.1 ≠ year_range.2 →
  runs data rs (best_real_growth data selected_sectors year_range best)
    (λ b _, b = leader (omap (growth_row rs year_range) selected_sectors) best).
Proof.
  intros Hne. revert best.
  induction selected_sectors as [|sector rest IH]; intros best.
  { by apply runs_ret. }
  cbn [best_real_growth].
  eapply runs_bind; [by apply runs_metrics_of|].
  intros m evs [-> ->].
  unfold metrics_opt. cbn [omap list_omap]. unfold growth_row at 1.
  destruct (first_row rs sector year_range.1) as [s|];
    [destruct (first_row rs sector year_range.2) as [e|]|].
  - rewrite metrics_dict_truthy.
    pose proof (metrics_dict_lookups s e year_range.1 year_range.2)
      as (_ & _ & _ & _ & _ & L2 & _).
    eapply runs_bind.
    { apply (runs_pure _ _ _
               (better best (sector, Зарплата e / Зарплата s,
                             Реальная_зарплата e / Реальная_зарплата s))
               (λ a _, a = better best
                             (sector, Зарплата e / Зарплата s,
                              Реальная_зарплата e / Реальная_зарплата s)));
        [|done].
      intros w. unfold bind, getitem, better. rewrite L2. simpl.
      by destruct (fgtb _ _). }
    intros best' evs ->. eapply runs_conseq; [apply IH|]. by intros b _ ->.
  - simpl. eapply runs_bind.
    { by apply (runs_ret _ _ best (λ a _, a = best)). }
    intros best' evs ->. eapply runs_conseq; [apply IH|]. by intros b _ ->.
  - simpl. eapply runs_bind.
    { by apply (runs_ret _ _ best (λ a _, a = best)). }
    intros best' evs ->. eapply runs_conseq; [apply IH|]. by intros b _ ->.
Qed.

Lemma ordered_spec (vals : list F) :
  ordered vals = true →
  (∀ a, a ∈ vals → fgtb a a = false)
  ∧ (∀ a b c, a ∈ vals → b ∈ vals → c ∈ vals →
       fgtb a b = true → fgtb b c = true → fgtb a c = true)
  ∧ (∀ a b c, a ∈ vals → b ∈ vals → c ∈ vals →
       fgtb a b = false → fgtb b c = false → fgtb a c = false).
Proof.
  unfold ordered. rewrite forallb_forall. intros Hord.
  assert (Hall : ∀ a b c, a ∈ vals → b ∈ vals → c ∈ vals →
            fgtb a a = false
            ∧ (fgtb a b = true → fgtb b c = true → fgtb a c = true)
            ∧ (fgtb a b = false → fgtb b c = false → fgtb a c = false)).
  { intros a b c Ha%list_elem_of_In Hb%list_elem_of_In Hc%list_elem_of_In.
    specialize (Hord a Ha). apply andb_true_iff in Hord as [Hirr Hab].
    rewrite forallb_forall in Hab. specialize (Hab b Hb).
    rewrite forallb_forall in Hab. specialize (Hab c Hc).
    apply andb_true_iff in Hab as [Ht Hn].
    destruct (fgtb a a), (fgtb a b), (fgtb b c), (fgtb a c); naive_solver. }
  split; [|split].
  - intros a Ha. by destruct (Hall a a a Ha Ha Ha).
  - intros a b c Ha Hb Hc. by destruct (Hall a b c Ha Hb Hc) as (_ & ? & _).
  - intros a b c Ha Hb Hc. by destruct (Hall a b c Ha Hb Hc) as (_ & _ & ?).
Qed.

Lemma leader_spec (vals : list F) rows best :
  ordered vals = true →
  best.1 ∈ vals → (∀ row, row ∈ rows → row.2 ∈ vals) →
  let g := leader rows best in
  g.1 ∈ vals
  ∧ fgtb best.1 g.1 = false
  ∧ (∀ row, row ∈ rows → fgtb row.2 g.1 = false)
  ∧ (g = best
     ∨ (∃ a, (g.2, a, g.1) ∈ rows) ∧ fgtb g.1 best.1 = true).
Proof.
  intros (Hirr & Ht & Hn)%ordered_spec. revert best.
  induction rows as [|row rows IH]; intros best Hbest Hrows; simpl.
  { split; [done|]. split; [by apply Hirr|]. split; [|by left].
    by intros row Hin%elem_of_nil. }
  assert (Hrow : row.2 ∈ vals) by (apply Hrows; left).
  assert (Hrest : ∀ x, x ∈ rows → x.2 ∈ vals)
    by (intros x Hx; apply Hrows; by right).
  destruct (fgtb row.2 best.1) eqn:E.
  - assert (better best row = (row.2, row.1.1)) as ->
      by (unfold better; by rewrite E).
    destruct (IH (row.2, row.1.1) Hrow Hrest) as (Hg & Hb' & Hall & Hwho).
    simpl in *. split; [done|]. split; [|split].
    + destruct (fgtb best.1 (leader rows (row.2, row.1.1)).1) eqn:E'; [|done].
      by rewrite (Ht _ _ _ Hrow Hbest Hg E E') in Hb'.
    + intros x [->|Hx]%elem_of_cons; [done|by apply Hall].
    + right. destruct Hwho as [->|[[a Ha] Hgt]]; simpl.
      * split; [|done]. exists row.1.2. destruct row as [[? ?] ?]. left.
      * split; [exists a; by right|]. by apply (Ht _ row.2).
  - assert (better best row = best) as ->
      by (unfold better; by rewrite E).
    destruct (IH best Hbest Hrest) as (Hg & Hb' & Hall & Hwho).
    split; [done|]. split; [done|]. split.
    + intros x [->|Hx]%elem_of_cons; [|by apply Hall].
      by apply (Hn _ best.1).
    + destruct Hwho as [->|[[a Ha] Hgt]]; [by left|].
      right. split; [exists a; by right|done].
Qed.

(** For a range of two different years, and when [>] orders the real
    growth ratios that are compared (there is no NaN among them), the loop
    of lines 335-341 ends with the greatest real growth of the selected
    industries that have a record at both ends of the range, if it is above
    0, and with the name of such an industry; with no real growth above 0
    it ends as it started, with 0 and no name. *)
Theorem best_real_growth_greatest w data rs selected_sectors (year_range : Z * Z) :
  frames w !! data = Some rs →
  year_range.1 ≠ year_range.2 →
  let rows := omap (growth_row rs year_range) selected_sectors in
  ordered (of_int 0 :: rows.*2) = true →
  ∃ best,
    (best_real_growth data selected_sectors year_range (of_int 0, "") w).1
    = Ok best
    ∧ (∀ sector a b, (sector, a, b) ∈ rows → fgtb b best.1 = false)
    ∧ fgtb (of_int 0) best.1 = false
    ∧ (best = (of_int 0, "")
       ∨ (∃ a, (best.2, a, best.1) ∈ rows) ∧ fgtb best.1 (of_int 0) = true).
Proof.
  intros Hdata Hne rows Hord.
  destruct (runs_best_real_growth data rs selected_sectors year_range
              (of_int 0, "") Hne w Hdata) as (best & evs & w' & Hrun & _ & _ & ->).
  exists (leader rows (of_int 0, "")). rewrite Hrun. split; [done|].
  destruct (leader_spec (of_int 0 :: rows.*2) rows (of_int 0, "") Hord)
    as (_ & Hb & Hall & Hwho).
  - left.
  - intros row Hrow. right. by apply list_elem_of_fmap_2.
  - split; [|split]; [|done|done].
    intros sector a b Hin. by apply (Hall (sector, a, b)).
Qed.
End Leader.

(** ** One row a year: the inflation data (lines 233, 325-327) *)

Section Inflation.
Context {F : Type} {arith : Float64 F}.
Implicit Types (rs : DataFrame F) (r : Row F) (seen : list Z).

Lemma drop_duplicates_year_spec seen rs :
  let kept := drop_duplicates_year seen rs in
  (kept `sublist_of` rs)
  ∧ NoDup (Год <$> kept)
  ∧ (∀ r, r ∈ kept → (Год r ∉ seen) ∧ first_of_year rs r)
  ∧ (∀ r, r ∈ rs → Год r ∉ seen → Год r ∈ Год <$> kept).
Proof.
  revert seen. induction rs as [|x rs IH]; intros seen; simpl.
  { split; [done|]. split; [constructor|].
    split; by intros r Hin%elem_of_nil. }
  destruct (bool_decide_reflect (Год x ∈ seen)) as [Hx|Hx].
  - destruct (IH seen) as (Hsub & Hnd & Hkept & Hall).
    split; [by apply sublist_cons|]. split; [done|]. split.
    + intros r Hr. destruct (Hkept r Hr) as (Hseen & pre & post & -> & Hpre).
      split; [done|]. exists (x :: pre), post. split; [done|].
      constructor; [congruence|done].
    + intros r [->|Hr]%elem_of_cons Hseen; [done|by apply Hall].
  - destruct (IH (Год x :: seen)) as (Hsub & Hnd & Hkept & Hall).
    split; [by apply sublist_skip|]. split; [|split].
    + cbn [fmap list_fmap]. apply NoDup_cons. split; [|done].
      intros (r & Hy & Hr)%list_elem_of_fmap.
      destruct (Hkept r Hr) as [Hseen _]. apply Hseen. rewrite Hy. left.
    + intros r [->|Hr]%elem_of_cons.
      * split; [done|]. exists [], rs. split; [done|constructor].
      * destruct (Hkept r Hr) as (Hseen & pre & post & -> & Hpre).
        split; [by intros ?; apply Hseen; right|].
        exists (x :: pre), post. split; [done|].
        constructor; [|done]. intros Hy. apply Hseen. rewrite Hy. left.
    + intros r Hin Hseen. cbn [fmap list_fmap].
      destruct (decide (Год r = Год x)) as [->|Hne]; [left|].
      right. apply elem_of_cons in Hin as [->|Hin]; [done|].
      apply Hall; [done|]. by intros [?|?]%elem_of_cons.
Qed.

(** [drop_duplicates(subset=['Год'])] keeps, in their order, exactly one
    row for each year of the frame, the first one of that year: however
    many industries are selected, each year counts once in the average and
    the maximum of the inflation. *)
Theorem drop_duplicates_year_first rs :
  let kept := drop_duplicates_year [] rs in
  (kept `sublist_of` rs)
  ∧ NoDup (Год <$> kept)
  ∧ (∀ y, y ∈ Год <$> kept ↔ y ∈ Год <$> rs)
  ∧ (∀ r, r ∈ kept → first_of_year rs r).
Proof.
  destruct (drop_duplicates_year_spec [] rs) as (Hsub & Hnd & Hkept & Hall).
  split; [done|]. split; [done|]. split.
  - intros y. split.
    + intros (r & -> & Hr)%list_elem_of_fmap.
      apply list_elem_of_fmap_2. by eapply elem_of_sublist.
    + intros (r & -> & Hr)%list_elem_of_fmap.
      apply Hall; [done|]. by intros ?%elem_of_nil.
  - intros r Hr. by destruct (Hkept r Hr).
Qed.

Global Instance year_le_trans : Transitive (year_le (F := F)).
Proof. unfold year_le. intros a b c. lia. Qed.

Global Instance year_le_total : Total (year_le (F := F)).
Proof. unfold year_le. intros a b. lia. Qed.

Lemma strictly_increasing (l : DataFrame F) :
  StronglySorted year_le l → NoDup (Год <$> l) →
  StronglySorted Z.lt (Год <$> l).
Proof.
  induction 1 as [|r l Hl IH Hr]; intros Hnd; cbn [fmap list_fmap].
  { constructor. }
  apply NoDup_cons in Hnd as [Hr' Hnd].
  constructor; [by apply IH|].
  apply Forall_fmap. rewrite Forall_forall in Hr |- *.
  intros x Hx. specialize (Hr x Hx). unfold year_le in Hr. simpl.
  assert (Год r ≠ Год x); [|lia].
  intros Heq. apply Hr'. rewrite Heq. by apply list_elem_of_fmap_2.
Qed.

(** The data of the inflation chart has one entry for each year of the
    filtered frame, in strictly increasing order of the years, and each
    entry holds the inflation values of the first row of its year. *)
Theorem inflation_data_years rs :
  let entries := inflation_data rs in
  StronglySorted Z.lt (entries.*1.*1)
  ∧ (∀ y, y ∈ entries.*1.*1 ↔ y ∈ Год <$> rs)
  ∧ (∀ y i c, (y, i, c) ∈ entries →
       ∃ r, first_of_year rs r ∧ Год r = y
            ∧ i = Инфляция r ∧ c = Кумулятивная_инфляция r).
Proof.
  destruct (drop_duplicates_year_first rs) as (Hsub & Hnd & Hyears & Hfirst).
  intros entries. subst entries. unfold inflation_data.
  set (kept := drop_duplicates_year [] rs) in *.
  pose proof (merge_sort_Permutation year_le kept) as Hperm.
  assert (Hmap : ((λ r, (Год r, Инфляция r, Кумулятивная_инфляция r))
                    <$> merge_sort year_le kept).*1.*1
                 = Год <$> merge_sort year_le kept).
  { rewrite <- !list_fmap_compose. by apply list_fmap_ext. }
  rewrite Hmap. split; [|split].
  - apply strictly_increasing; [apply StronglySorted_merge_sort; apply _|].
    by rewrite Hperm.
  - intros y. by rewrite Hperm.
  - intros y i c (r & [= -> -> ->] & Hr)%list_elem_of_fmap.
    exists r. split; [|done]. apply Hfirst. by rewrite <- Hperm.
Qed.
End Inflation.

(** ** The selection the widgets start from (lines 89-106) *)

Section Defaults.
Context {F : Type} {arith : Float64 F}.
Implicit Types (w : world F) (rs : DataFrame F) (r : Row F).

Lemma unique_spec (seen l : list string) :
  NoDup (unique seen l)
  ∧ (∀ x, x ∈ unique seen l ↔ x ∈ l ∧ x ∉ seen).
Proof.
  revert seen. induction l as [|a l IH]; intros seen; simpl.
  { split; [constructor|]. intros x. split; [by intros ?%elem_of_nil|].
    by intros [?%elem_of_nil _]. }
  destruct (bool_decide_reflect (a ∈ seen)) as [Ha|Ha].
  - destruct (IH seen) as [Hnd Hin]. split; [done|].
    intros x. rewrite Hin, elem_of_cons. split; [tauto|].
    intros [[->|?] ?]; [done|tauto].
  - destruct (IH (a :: seen)) as [Hnd Hin]. split.
    + apply NoDup_cons. split; [|done].
      rewrite Hin. intros [_ Hno]. apply Hno. left.
    + intros x. rewrite !elem_of_cons, Hin, elem_of_cons.
      destruct (decide (x = a)) as [->|Hne]; [tauto|]. tauto.
Qed.

Lemma min_year_spec r rs :
  let lo := foldr Z.min (Год r) (Год <$> rs) in
  (∀ x, x ∈ r :: rs → (lo ≤ Год x)%Z) ∧ lo ∈ Год <$> (r :: rs).
Proof.
  induction rs as [|a rs [IH1 IH2]]; cbn [foldr fmap list_fmap] in *.
  { split; [|left]. intros x ->%list_elem_of_singleton. lia. }
  split.
  - intros x Hx. rewrite !elem_of_cons in Hx.
    destruct Hx as [->|[->|Hx]]; [|lia|].
    + specialize (IH1 r). rewrite elem_of_cons in IH1.
      specialize (IH1 (or_introl eq_refl)). lia.
    + specialize (IH1 x). rewrite elem_of_cons in IH1.
      specialize (IH1 (or_intror Hx)). lia.
  - destruct (Z.min_spec (Год a) (foldr Z.min (Год r) (Год <$> rs)))
      as [[_ ->]|[_ ->]].
    + right. left.
    + apply elem_of_cons in IH2 as [->|IH2]; [left|by do 2 right].
Qed.

Lemma max_year_spec r rs :
  let hi := foldr Z.max (Год r) (Год <$> rs) in
  (∀ x, x ∈ r :: rs → (Год x ≤ hi)%Z) ∧ hi ∈ Год <$> (r :: rs).
Proof.
  induction rs as [|a rs [IH1 IH2]]; cbn [foldr fmap list_fmap] in *.
  { split; [|left]. intros x ->%list_elem_of_singleton. lia. }
  split.
  - intros x Hx. rewrite !elem_of_cons in Hx.
    destruct Hx as [->|[->|Hx]]; [|lia|].
    + specialize (IH1 r). rewrite elem_of_cons in IH1.
      specialize (IH1 (or_introl eq_refl)). lia.
    + specialize (IH1 x). rewrite elem_of_cons in IH1.
      specialize (IH1 (or_intror Hx)). lia.
  - destruct (Z.max_spec (Год a) (foldr Z.max (Год r) (Год <$> rs)))
      as [[_ ->]|[_ ->]].
    + apply elem_of_cons in IH2 as [->|IH2]; [left|by do 2 right].
    + right. left.
Qed.

Lemma filter_all (P : Row F → Prop) `{∀ r, Decision (P r)} rs :
  (∀ r, r ∈ rs → P r) → filter P rs = rs.
Proof.
  induction rs as [|r rs IH]; intros Hall; [done|].
  rewrite filter_cons, decide_True by (apply Hall; left).
  f_equal. apply IH. intros x Hx. apply Hall. by right.
Qed.

(** With the widgets as they start (every industry of the dataset
    selected, the slider from the least to the greatest year), the
    filtering step keeps the whole dataset; the industries offered are
    those of the dataset, each once, and the two ends of the slider are
    years of the dataset. *)
Theorem default_selection_keeps_all w data rs :
  frames w !! data = Some rs →
  rs ≠ [] →
  ∃ sectors lo hi filtered w',
    default_selection rs = Some (sectors, (lo, hi))
    ∧ filtered_data data sectors (lo, hi) w = (Ok filtered, w')
    ∧ frames w' !! filtered = Some rs
    ∧ NoDup sectors
    ∧ (∀ sector, sector ∈ sectors ↔ sector ∈ Отрасль <$> rs)
    ∧ (lo ≤ hi)%Z
    ∧ lo ∈ Год <$> rs
    ∧ hi ∈ Год <$> rs.
Proof.
  intros Hdata Hrs. destruct rs as [|r rs]; [done|].
  destruct (min_year_spec r rs) as [Hlo Hlo'].
  destruct (max_year_spec r rs) as [Hhi Hhi'].
  destruct (unique_spec [] (Отрасль <$> r :: rs)) as [Hnd Hsec].
  eexists _, _, _, _, _. split; [reflexivity|].
  split; [by apply run_filtered_data|].
  split; [|split; [exact Hnd|split; [|split; [|by split]]]].
  - rewrite filter_all; [apply new_frame_lookup_new|].
    intros x Hx. split; [|split]; simpl.
    + apply Hsec. split; [by apply list_elem_of_fmap_2|by intros ?%elem_of_nil].
    + by apply Hlo.
    + by apply Hhi.
  - intros sector. unfold available_sectors. rewrite Hsec.
    split; [tauto|]. intros ?. split; [done|by intros ?%elem_of_nil].
  - specialize (Hlo r). specialize (Hhi r).
    rewrite elem_of_cons in Hlo, Hhi.
    specialize (Hlo (or_introl eq_refl)). specialize (Hhi (or_introl eq_refl)).
    lia.
Qed.
End Defaults.

(** ** The key metrics (lines 116-135) and the filtered frame *)

Section KeyMetrics.
Context {F : Type} {arith : Float64 F}.
Implicit Types (w : world F) (rs : DataFrame F).
Local Open Scope py_scope.

Lemma runs_for_each data rs {A : Type} (l : list A) (body : A → M F unit)
    (Q : A → list (event F) → Prop) :
  (∀ x, runs data rs (body x) (λ _ evs, Q x evs)) →
  runs data rs (for_each l body)
    (λ _ evs, ∃ evss, evs = concat evss ∧ Forall2 Q l evss).
Proof.
  intros Hbody. induction l as [|x l IH]; cbn [for_each].
  { apply runs_ret. exists []. split; [done|constructor]. }
  eapply runs_bind; [apply Hbody|]. intros [] evs HQ.
  eapply runs_conseq; [apply IH|].
  intros [] evs' (evss & -> & Hall). exists (evs :: evss).
  split; [done|by constructor].
Qed.

Lemma elem_of_enumerate {A : Type} (l : list A) (n : nat) (x : A) :
  (∃ i, (i, x) ∈ zip (seq n (length l)) l) ↔ x ∈ l.
Proof.
  revert n. induction l as [|a l IH]; intros n; simpl.
  { split; [by intros [? ?%elem_of_nil]|by intros ?%elem_of_nil]. }
  rewrite elem_of_cons, <- (IH (S n)). split.
  - intros [i [[= -> ->]|Hin]%elem_of_cons]; [by left|right; eauto].
  - intros [->|[i Hin]]; [exists n; left|exists i; by right].
Qed.

Lemma Forall2_eq_fmap {A B : Type} (f : A → B) (l : list A) (k : list B) :
  Forall2 (λ x y, y = f x) l k → k = f <$> l.
Proof. induction 1 as [|x y l k -> _ ->]; [done|]. done. Qed.

Lemma elem_of_concat_fmap {A B : Type} (f : A → list B) (l : list A) (b : B) :
  b ∈ concat (f <$> l) ↔ ∃ x, x ∈ l ∧ b ∈ f x.
Proof.
  induction l as [|a l IH]; simpl.
  { split; [by intros ?%elem_of_nil|]. by intros (? & ?%elem_of_nil & _). }
  rewrite elem_of_app, IH. split.
  - intros [Hb|(x & Hx & Hb)]; [exists a|exists x]; split; auto.
    + left.
    + by right.
  - intros (x & [->|Hx]%elem_of_cons & Hb); [by left|right; eauto].
Qed.

Lemma runs_key_metrics data rs selected_sectors (year_range : Z * Z) :
  year_range.1 ≠ year_range.2 →
  runs data rs (key_metrics data selected_sectors year_range)
    (λ _ evs, evs = key_metrics_events rs selected_sectors year_range).
Proof.
  intros Hne. unfold key_metrics, key_metrics_events.
  eapply runs_bind; [apply runs_emit_eq|]. intros [] evs1 ->.
  eapply runs_bind; [apply runs_emit_eq|]. intros [] evs2 ->.
  eapply runs_conseq.
  { apply (runs_for_each _ _ _ _
             (λ x evs, evs = column_events rs year_range x)).
    intros [i sector]. unfold column_events. simpl.
    eapply runs_bind; [apply runs_emit_eq|]. intros [] evs ->.
    eapply runs_bind; [by apply runs_metrics_of|].
    intros m evs [-> ->]. unfold metrics_opt.
    destruct (first_row rs sector year_range.1) as [s|];
      [destruct (first_row rs sector year_range.2) as [e|]|].
    - rewrite metrics_dict_truthy.
      pose proof (metrics_dict_lookups s e year_range.1 year_range.2)
        as (_ & L1 & _ & _ & L2 & L3 & _ & L4).
      eapply (runs_bind data rs _ _
                (λ _ evs,
                   evs = [heading sector;
                          st_metric
                            [Lit "Зарплата "; FmtInt year_range.2]
                            [FmtFloat (Зарплата e) ",.0f"; Lit " ₽"]
                            [Lit "+";
                             FmtFloat ((Зарплата e / Зарплата s - of_int 1)
                                       * of_int 100) ".0f";
                             Lit "% за период"];
                          st_metric
                            [Lit "Реальный рост"]
                            [FmtFloat
                               (Реальная_зарплата e / Реальная_зарплата s)
                               ".1f"; Lit "x"]
                            [FmtFloat
                               (((Реальная_зарплата e / Реальная_зарплата s)
                                 ** truediv 1 (year_range.2 - year_range.1)%Z
                                 - of_int 1) * of_int 100) ".1f";
                             Lit "% в год"]])).
      { eapply runs_bind; [apply runs_emit_eq|]. intros [] evs ->.
        eapply runs_bind;
          [by eapply (runs_getitem _ _ _ _ _ (λ v evs, v = _ ∧ evs = []))|].
        intros v1 evs [-> ->].
        eapply runs_bind;
          [by eapply (runs_getitem _ _ _ _ _ (λ v evs, v = _ ∧ evs = []))|].
        intros v2 evs [-> ->].
        eapply runs_bind; [apply runs_emit_eq|]. intros [] evs ->.
        eapply runs_bind;
          [by eapply (runs_getitem _ _ _ _ _ (λ v evs, v = _ ∧ evs = []))|].
        intros v3 evs [-> ->].
        eapply runs_bind;
          [by eapply (runs_getitem _ _ _ _ _ (λ v evs, v = _ ∧ evs = []))|].
        intros v4 evs [-> ->].
        eapply runs_conseq; [apply runs_emit_eq|].
        intros [] evs ->. simpl. reflexivity. }
      intros [] evs ->. eapply runs_conseq; [apply runs_emit_eq|].
      by intros [] evs ->.
    - cbn [truthy].
      eapply runs_bind; [by apply (runs_ret _ _ _ (λ _ evs, evs = []))|].
      intros [] evs ->. eapply runs_conseq; [apply runs_emit_eq|].
      by intros [] evs ->.
    - cbn [truthy].
      eapply runs_bind; [by apply (runs_ret _ _ _ (λ _ evs, evs = []))|].
      intros [] evs ->. eapply runs_conseq; [apply runs_emit_eq|].
      by intros [] evs ->. }
  intros [] evs (evss & -> & Hall). simpl.
  by rewrite (Forall2_eq_fmap _ _ _ Hall).
Qed.

Lemma heading_in_column rs (year_range : Z * Z) (column : nat * string) name :
  heading name ∈ column_events rs year_range column
  ↔ name = column.2
    ∧ has_record rs column.2 year_range.1
    ∧ has_record rs column.2 year_range.2.
Proof.
  pose proof (growth_row_is_Some rs year_range column.2) as Hrec.
  unfold column_events, growth_row in *.
  destruct (first_row rs column.2 year_range.1) as [s|];
    [destruct (first_row rs column.2 year_range.2) as [e|]|];
    simpl; rewrite !elem_of_cons, elem_of_nil; unfold heading.
  - assert (Hboth : has_record rs column.2 year_range.1
                    ∧ has_record rs column.2 year_range.2)
      by (apply Hrec; eauto).
    split; [|intros (-> & _); tauto].
    intros [?|[?|[[= ->]|[?|[?|[?|[]]]]]]]; done.
  - split; [by intros [?|[?|[?|[]]]]|].
    intros (_ & Hboth). apply Hrec in Hboth. by destruct Hboth.
  - split; [by intros [?|[?|[?|[]]]]|].
    intros (_ & Hboth). apply Hrec in Hboth. by destruct Hboth.
Qed.

(** For a range of two different years and a selection that is not empty
    (the script gets to line 116 with no other), the section of the key
    metrics ends without an exception and shows exactly
    [key_metrics_events]: the
    header, one column for each selected industry, and in the column of
    an industry its heading and its two metrics when it has a record at
    both ends of the range. The heading of an industry is shown exactly
    when it is selected and has both records; the column of any other
    selected industry stays empty: it is entered and left, with the
    record of the call in between and nothing shown. *)
Theorem key_metrics_headings w data rs selected_sectors (year_range : Z * Z) :
  frames w !! data = Some rs →
  year_range.1 ≠ year_range.2 →
  selected_sectors ≠ [] →
  let run := key_metrics data selected_sectors year_range w in
  let evs := key_metrics_events rs selected_sectors year_range in
  let both sector :=
    has_record rs sector year_range.1 ∧ has_record rs sector year_range.2 in
  run.1 = Ok tt
  ∧ trace run.2 = trace w ++ evs
  ∧ st_columns (length selected_sectors) ∈ evs
  ∧ (∀ name, heading name ∈ evs ↔ name ∈ selected_sectors ∧ both name)
  ∧ (∀ i sector,
       ¬ both sector →
       column_events rs year_range (i, sector)
       = [with_enter i; metrics_call sector year_range.1 year_range.2;
          with_exit])
  ∧ (∀ i sector,
       both sector →
       ∃ a b c a' b' c',
         column_events rs year_range (i, sector)
         = [with_enter i; metrics_call sector year_range.1 year_range.2;
            heading sector; st_metric a b c; st_metric a' b' c';
            with_exit]).
Proof.
  intros Hdata Hne _ run evs both. subst run evs both.
  destruct (runs_key_metrics data rs selected_sectors year_range Hne w Hdata)
    as ([] & evs & w' & -> & _ & Ht & ->).
  cbn [fst snd]. split; [done|]. split; [done|].
  split; [right; left|]. split; [|split].
  - intros name. unfold key_metrics_events.
    rewrite !elem_of_cons, elem_of_concat_fmap.
    rewrite <- (elem_of_enumerate selected_sectors 0 name). split.
    + intros [[=]|[[=]|([i sector] & Hin & (-> & Hrec)%heading_in_column)]].
      split; [by exists i|done].
    + intros ([i Hin] & Hrec). do 2 right. exists (i, name).
      split; [done|]. by apply heading_in_column.
  - intros i sector Hnone.
    pose proof (growth_row_is_Some rs year_range sector) as Hrec.
    unfold column_events, growth_row in *. simpl.
    destruct (first_row rs sector year_range.1) as [s|]; [|done].
    destruct (first_row rs sector year_range.2) as [e|]; [|done].
    destruct Hnone. apply Hrec. eauto.
  - intros i sector Hboth.
    apply (growth_row_is_Some rs year_range sector) in Hboth.
    unfold column_events, growth_row in *. simpl.
    destruct (first_row rs sector year_range.1) as [s|];
      [|by destruct Hboth].
    destruct (first_row rs sector year_range.2) as [e|];
      [|by destruct Hboth].
    simpl. by eexists _, _, _, _, _, _.
Qed.

Lemma year_rows_filtered rs selected_sectors (year_range : Z * Z) sector year :
  sector ∈ selected_sectors →
  (year_range.1 ≤ year ≤ year_range.2)%Z →
  year_rows (sector_rows (filter (selected selected_sectors year_range) rs)
               sector) year
  = year_rows (sector_rows rs sector) year.
Proof.
  intros Hsec Hyear. induction rs as [|r rs IH]; [done|].
  rewrite filter_cons. destruct (decide (selected _ _ r)) as [Hsel|Hsel].
  - rewrite !year_sector_rows_cons. by rewrite IH.
  - rewrite IH, year_sector_rows_cons.
    destruct (String.eqb (Отрасль r) sector && (Год r =? year)) eqn:E; [|done].
    apply record_at_test in E as [<- <-]. by destruct Hsel.
Qed.

(** The script computes the metrics on the whole dataset, not on the
    filtered frame. For a selected industry and a range with
    [lo ≤ hi] that makes no difference: a call on the filtered frame
    returns what the call on the dataset returns. *)
Theorem calculate_metrics_on_filtered w data rs selected_sectors
    (year_range : Z * Z) sector :
  frames w !! data = Some rs →
  sector ∈ selected_sectors →
  (year_range.1 ≤ year_range.2)%Z →
  (bind (filtered_data data selected_sectors year_range)
     (λ filtered,
        calculate_metrics filtered sector year_range.1 year_range.2) w).1
  = (calculate_metrics data sector year_range.1 year_range.2 w).1.
Proof.
  intros Hdata Hsec Hle.
  erewrite run_bind by (by apply run_filtered_data).
  erewrite (run_calculate_metrics _ _ (filter _ rs))
    by apply new_frame_lookup_new.
  rewrite (run_calculate_metrics _ _ _ _ _ _ Hdata). simpl.
  unfold metrics_value. by rewrite !year_rows_filtered by (done || lia).
Qed.
End KeyMetrics.

(** ** More of the properties at work on example data (binary64) *)

Section WorkedMore.
Import Examples MoreExamples.
Existing Instance Binary64.series_ops.

Lemma calculate_metrics_outcomes_witness :
  let result := (calculate_metrics 0%nat "Med" 2000 2020 (start three_sectors)).1 in
  (result = Ok None
   ↔ ¬ has_record three_sectors "Med" 2000
     ∨ ¬ has_record three_sectors "Med" 2020)
  ∧ (∀ e, result = Raise e
          ↔ e = ZeroDivisionError ∧ 2000 = 2020
            ∧ has_record three_sectors "Med" 2000)
  ∧ ((∃ m, result = Ok (Some m))
     ↔ has_record three_sectors "Med" 2000
       ∧ has_record three_sectors "Med" 2020 ∧ 2000 ≠ 2020).
Proof.
  apply (calculate_metrics_outcomes (start three_sectors) 0%nat three_sectors).
  reflexivity.
Defined.

Lemma growth_data_rows_witness :
  ∃ rows,
    (growth_data 0%nat ["Med"; "Edu"; "IT"] (2000, 2020)
       (start three_sectors)).1 = Ok rows
    ∧ trace (growth_data 0%nat ["Med"; "Edu"; "IT"] (2000, 2020)
               (start three_sectors)).2
      = [metrics_call "Med" 2000 2020; metrics_call "Edu" 2000 2020;
         metrics_call "IT" 2000 2020]
    ∧ rows = [("Edu", 4%float, 2%float); ("IT", 8%float, 4%float)]
    ∧ rows.*1.*1 = filter (λ sector, has_record three_sectors sector 2000
                                     ∧ has_record three_sectors sector 2020)
                     ["Med"; "Edu"; "IT"]
    ∧ (∀ sector a b,
         (sector, a, b) ∈ rows
         ↔ sector ∈ ["Med"; "Edu"; "IT"]
           ∧ ∃ s e, first_record three_sectors sector 2000 s
                    ∧ first_record three_sectors sector 2020 e
                    ∧ a = (Зарплата e / Зарплата s)%py
                    ∧ b = (Реальная_зарплата e / Реальная_зарплата s)%py).
Proof.
  assert (Hne : (2000, 2020).1 ≠ (2000, 2020).2) by (simpl; lia).
  exact (growth_data_rows (start three_sectors) 0%nat three_sectors
           ["Med"; "Edu"; "IT"] (2000, 2020) eq_refl Hne).
Defined.

Lemma comparison_chart_shown_witness :
  let run := charts 0%nat 1%nat ["Med"] (2000, 2020) Сравнение_роста
               (start three_sectors) in
  let some_sector :=
    ∃ sector, sector ∈ ["Med"]
              ∧ has_record three_sectors sector 2000
              ∧ has_record three_sectors sector 2020 in
  run.1 = Ok tt
  ∧ trace run.2
    = trace (start three_sectors)
      ++ comparison_events three_sectors ["Med"] (2000, 2020)
  ∧ (Exists is_chart (comparison_events three_sectors ["Med"] (2000, 2020))
     ↔ some_sector)
  ∧ (¬ some_sector →
     ∃ title label,
       trace run.2
       = trace (start three_sectors)
         ++ st_header title :: st_selectbox label
            :: ((λ sector, metrics_call sector 2000 2020) <$> ["Med"])).
Proof.
  apply (comparison_chart_shown (start three_sectors) 0%nat three_sectors
           1%nat ["Med"] (2000, 2020)); [reflexivity|simpl; lia].
Defined.

Lemma dashboard_same_year_raises_witness :
  (dashboard 0%nat ["Med"; "IT"] (2020, 2020) Инфляция_chart false
     (start three_sectors)).1
  = Raise ZeroDivisionError.
Proof.
  apply (dashboard_same_year_raises (start three_sectors) 0%nat three_sectors);
    [reflexivity|].
  exists it2020. split; [do 2 right; left|].
  split; [right; left|simpl; lia].
Defined.

Lemma dashboard_warning_iff_witness :
  let run := dashboard 0%nat ["Med"] (2010, 2020) Инфляция_chart false
               (start three_sectors) in
  ∃ evs, trace run.2 = trace (start three_sectors) ++ evs
         ∧ (Exists is_warning evs
            ↔ ∀ r, r ∈ three_sectors → ¬ selected ["Med"] (2010, 2020) r)
         ∧ (Exists is_warning evs → evs = [st_warning no_data_message]).
Proof.
  apply (dashboard_warning_iff (start three_sectors) 0%nat three_sectors).
  reflexivity.
Defined.

Lemma key_metrics_headings_witness :
  let run := key_metrics 0%nat ["Med"; "IT"] (2000, 2020) (start three_sectors) in
  let evs := key_metrics_events three_sectors ["Med"; "IT"] (2000, 2020) in
  let both sector :=
    has_record three_sectors sector 2000 ∧ has_record three_sectors sector 2020 in
  run.1 = Ok tt
  ∧ trace run.2 = trace (start three_sectors) ++ evs
  ∧ st_columns 2 ∈ evs
  ∧ (∀ name, heading name ∈ evs ↔ name ∈ ["Med"; "IT"] ∧ both name)
  ∧ (∀ i sector,
       ¬ both sector →
       column_events three_sectors (2000, 2020) (i, sector)
       = [with_enter i; metrics_call sector 2000 2020; with_exit])
  ∧ (∀ i sector,
       both sector →
       ∃ a b c a' b' c',
         column_events three_sectors (2000, 2020) (i, sector)
         = [with_enter i; metrics_call sector 2000 2020;
            heading sector; st_metric a b c; st_metric a' b' c';
            with_exit]).
Proof.
  apply (key_metrics_headings (start three_sectors) 0%nat three_sectors
           ["Med"; "IT"] (2000, 2020)); [reflexivity|simpl; lia|discriminate].
Defined.

Lemma best_real_growth_greatest_witness :
  let rows := omap (growth_row three_sectors (2000, 2020)) ["Med"; "Edu"; "IT"] in
  ordered (of_int 0 :: rows.*2) = true
  ∧ ∃ best,
      (best_real_growth 0%nat ["Med"; "Edu"; "IT"] (2000, 2020) (of_int 0, "")
         (start three_sectors)).1 = Ok best
      ∧ (∀ sector a b, (sector, a, b) ∈ rows → fgtb b best.1 = false)
      ∧ fgtb (of_int 0) best.1 = false
      ∧ (best = (of_int 0, "")
         ∨ (∃ a, (best.2, a, best.1) ∈ rows) ∧ fgtb best.1 (of_int 0) = true).
Proof.
  intros rows.
  assert (Hord : ordered (of_int 0 :: rows.*2) = true)
    by (vm_compute; reflexivity).
  split; [exact Hord|].
  apply (best_real_growth_greatest (start three_sectors) 0%nat three_sectors
           ["Med"; "Edu"; "IT"] (2000, 2020)); [reflexivity|simpl; lia|exact Hord].
Defined.

Lemma default_selection_keeps_all_witness :
  ∃ sectors lo hi filtered w',
    default_selection three_sectors = Some (sectors, (lo, hi))
    ∧ filtered_data 0%nat sectors (lo, hi) (start three_sectors)
      = (Ok filtered, w')
    ∧ frames w' !! filtered = Some three_sectors
    ∧ NoDup sectors
    ∧ (∀ sector, sector ∈ sectors ↔ sector ∈ Отрасль <$> three_sectors)
    ∧ (lo ≤ hi)%Z
    ∧ lo ∈ Год <$> three_sectors
    ∧ hi ∈ Год <$> three_sectors.
Proof.
  apply (default_selection_keeps_all (start three_sectors) 0%nat three_sectors);
    [reflexivity|discriminate].
Defined.

Lemma calculate_metrics_on_filtered_witness :
  (bind (filtered_data 0%nat ["Edu"; "IT"] (2000, 2020))
     (λ filtered, calculate_metrics filtered "IT" 2000 2020)
     (start three_sectors)).1
  = (calculate_metrics 0%nat "IT" 2000 2020 (start three_sectors)).1.
Proof.
  apply (calculate_metrics_on_filtered (start three_sectors) 0%nat three_sectors
           ["Edu"; "IT"] (2000, 2020) "IT");
    [reflexivity|right; left|simpl; lia].
Defined.

(** The selection the widgets start from, on the example. *)
Example three_sectors_default :
  default_selection three_sectors = Some (["IT"; "Edu"; "Med"], (2000, 2020)%Z).
Proof. reflexivity. Qed.

(** The leader of the example is IT, with a real growth of 4. *)
Example three_sectors_leader :
  (best_real_growth 0%nat ["Med"; "Edu"; "IT"] (2000, 2020) (of_int 0, "")
     (start three_sectors)).1 = Ok (4%float, "IT").
Proof. vm_compute. reflexivity. Qed.
End WorkedMore.
